(** * The chunked sales loader of [eda.py], embedded and verified

    The dashboard script reads [sales.csv] in chunks, cleans every chunk,
    accumulates totals and per-name revenue maps, keeps the first chunks as
    a display sample and derives a few key figures.  This file embeds that
    loader ([load_support_data], [load_sales_chunked] and the derived
    [avg_ticket]) and states its properties.

    Modelling decisions, all of them about pandas rather than about the
    script:
    - a cell is a [value]: missing, a number, a string, a timestamp or a
      missing timestamp.  Numbers are exact integers, so sums are exact and
      the int/float distinction of a column is not represented;
    - a [DataFrame] is its column names and its rows in order; a frame read
      from a CSV file is rectangular and holds no timestamps;
    - [pd.to_datetime] works cell by cell, which is what pandas does for a
      column that does not start with a string; how it reads a string is
      left open (the section variable [parse_date]), a number is an offset
      from the epoch;
    - a dictionary is a [gmap]: the script never depends on the order of
      the entries of the maps it builds, except for the tie-break of
      [top_product], which is not covered here;
    - the progress bar and the status text are not represented. *)

From Stdlib Require Import QArith_base Qminmax.
From stdpp Require Import gmap strings list fin_maps pretty.

Local Open Scope Z_scope.

(** ** Cells and frames *)

Inductive value :=
  | VNaN                (* a missing cell, NaN *)
  | VNum (n : Z)        (* a number *)
  | VStr (s : string)   (* a string *)
  | VTime (t : Z)       (* a Timestamp, as an offset from the epoch *)
  | VNaT.               (* a missing Timestamp, NaT *)

Global Instance value_eq_dec : EqDecision value.
Proof. solve_decision. Defined.

Definition value_to_sum (v : value) : unit + Z + string + Z + unit :=
  match v with
  | VNaN => inl (inl (inl (inl tt)))
  | VNum n => inl (inl (inl (inr n)))
  | VStr s => inl (inl (inr s))
  | VTime t => inl (inr t)
  | VNaT => inr tt
  end.

Definition value_of_sum (x : unit + Z + string + Z + unit) : value :=
  match x with
  | inl (inl (inl (inl _))) => VNaN
  | inl (inl (inl (inr n))) => VNum n
  | inl (inl (inr s)) => VStr s
  | inl (inr t) => VTime t
  | inr _ => VNaT
  end.

Global Instance value_countable : Countable value.
Proof.
  refine (inj_countable' value_to_sum value_of_sum _).
  intros []; reflexivity.
Defined.

Global Instance value_inhabited : Inhabited value := populate VNaN.

(** [pd.isna] on one cell. *)
Definition isna (v : value) : bool :=
  match v with
  | VNaN | VNaT => true
  | _ => false
  end.

(** [str(v)], as the f-strings of the loader render an id.  A timestamp
    never reaches an f-string of the loader (only the [date] column holds
    timestamps, and it is never used as an id); its rendering here is a
    placeholder. *)
Definition pystr (v : value) : string :=
  match v with
  | VNaN => "nan"
  | VNum n => pretty n
  | VStr s => s
  | VTime t => "Timestamp(" +:+ pretty t +:+ ")"
  | VNaT => "NaT"
  end.

Abbreviation row := (list value).

Record DataFrame := mkFrame {
  columns : list string;
  rows : list row
}.

(** Every row has one cell per column. *)
Definition rectangular (df : DataFrame) : Prop :=
  Forall (λ r : row, length r = length (columns df)) (rows df).

(** [name in df.columns], with the position of the column. *)
Fixpoint col_index (name : string) (cols : list string) : option nat :=
  match cols with
  | [] => None
  | c :: cols' =>
      if decide (c = name) then Some 0%nat else S <$> col_index name cols'
  end.

Definition has_col (name : string) (df : DataFrame) : bool :=
  bool_decide (is_Some (col_index name (columns df))).

(** The cell of a row at a position. *)
Definition cell (i : nat) (r : row) : value := r !!! i.

(** [df.iloc[:, i]] as a list of cells. *)
Definition column_at (i : nat) (df : DataFrame) : list value :=
  cell i <$> rows df.

(** [len(df)]. *)
Definition len (df : DataFrame) : nat := length (rows df).

(** [df[name] = series]: an existing column is overwritten in place, a new
    one is appended on the right. *)
Definition set_col (name : string) (series : list value) (df : DataFrame)
    : DataFrame :=
  match col_index name (columns df) with
  | Some i =>
      mkFrame (columns df) (zip_with (λ r v, <[i := v]> r) (rows df) series)
  | None =>
      mkFrame (columns df ++ [name])
              (zip_with (λ r v, r ++ [v]) (rows df) series)
  end.

(** ** Outcomes of a run

    Every failure of the loader ends the script through [st.stop()], after
    one of four messages. *)

Inductive halt :=
  | SupportFileMissing   (* load_support_data, line 49 *)
  | NoDataFound          (* line 120 *)
  | SalesFileMissing     (* line 138 *)
  | LoadingError.        (* line 141: any other exception *)

Inductive outcome (A : Type) :=
  | Done (a : A)
  | Stop (h : halt).
Arguments Done {A} a.
Arguments Stop {A} h.

Definition obind {A B} (m : outcome A) (f : A → outcome B) : outcome B :=
  match m with
  | Done a => f a
  | Stop h => Stop h
  end.

Notation "'let!' x := m 'in' k" := (obind m (λ x, k))
  (at level 10, x pattern, m at level 100, k at level 200).

(** ** Cleaning a chunk *)

(** [drop_duplicates]: the first occurrence of every row is kept; NaN cells
    compare equal to each other, as in pandas. *)
Fixpoint dedup (l : list row) : list row :=
  match l with
  | [] => []
  | r :: l' => r :: filter (λ r', r' ≠ r) (dedup l')
  end.

Definition drop_duplicates (df : DataFrame) : DataFrame :=
  mkFrame (columns df) (dedup (rows df)).

(** [fillna(0)]. *)
Definition fill0 (v : value) : value := if isna v then VNum 0 else v.

Definition fill_row (r : row) : row := fill0 <$> r.

Definition fillna (df : DataFrame) : DataFrame :=
  mkFrame (columns df) (fill_row <$> rows df).

(** ** Reading in chunks *)

Fixpoint chunks_go {A} (fuel n : nat) (l : list A) : list (list A) :=
  match fuel with
  | O => []
  | S fuel' =>
      match l with
      | [] => []
      | _ => take n l :: chunks_go fuel' n (drop n l)
      end
  end.

(** The rows cut into pieces of [n] rows, the last one possibly shorter. *)
Definition chunks {A} (n : nat) (l : list A) : list (list A) :=
  chunks_go (length l) n l.

(** [pd.read_csv(path, chunksize=n)] on a file that exists: a chunk size
    below 1 is refused with a ValueError; a file with a header and no data
    row yields one empty chunk (the reader's first read always returns a
    frame), any other file yields its rows in pieces of [n]. *)
Definition read_csv_chunks (chunksize : nat) (df : DataFrame)
    : outcome (list DataFrame) :=
  if decide (chunksize = 0%nat) then Stop LoadingError
  else match rows df with
       | [] => Done [mkFrame (columns df) []]
       | _ => Done (mkFrame (columns df) <$> chunks chunksize (rows df))
       end.

(** ** The lookup tables (lines 41-61) *)

(** The three CSV files of the working directory; [None] is a file that
    does not exist. *)
Record files := mkFiles {
  product_hierarchy_csv : option DataFrame;
  store_cities_csv : option DataFrame;
  sales_csv : option DataFrame
}.

Definition load_support_data (fs : files) : outcome (DataFrame * DataFrame) :=
  match product_hierarchy_csv fs, store_cities_csv fs with
  | Some products, Some cities => Done (products, cities)
  | _, _ => Stop SupportFileMissing
  end.

(** [df[name]]: a KeyError when the column is absent. *)
Definition getitem (name : string) (df : DataFrame) : outcome (list value) :=
  match col_index name (columns df) with
  | Some i => Done (column_at i df)
  | None => Stop LoadingError
  end.

(** [df.columns[i]]: an IndexError when there is no such column. *)
Definition columns_item (i : nat) (df : DataFrame) : outcome string :=
  match columns df !! i with
  | Some c => Done c
  | None => Stop LoadingError
  end.

(** What the second argument of [zip] is at lines 60 and 61: a column of
    the frame or a Python string. *)
Inductive pyobj :=
  | PySeries (xs : list value)
  | PyStr (s : string).

(** [df.get(key, default)]: the column when the frame has it, the default
    as it is otherwise. *)
Definition df_get (key : string) (default : pyobj) (df : DataFrame) : pyobj :=
  match col_index key (columns df) with
  | Some i => PySeries (column_at i df)
  | None => default
  end.

(** Iteration: a column yields its cells, a string yields its characters,
    each as a string of length one. *)
Definition py_iter (o : pyobj) : list value :=
  match o with
  | PySeries xs => xs
  | PyStr s => (λ c, VStr (String c EmptyString)) <$> String.list_ascii_of_string s
  end.

(** [dict(pairs)]: a later pair overrides an earlier one with the same key. *)
Definition py_dict (kvs : list (value * value)) : gmap value value :=
  foldl (λ m kv, <[kv.1 := kv.2]> m) ∅ kvs.

(** [dict(zip(df[id_col], df.get(name_col, df.columns[1])))].  Python
    evaluates [df[id_col]] first, then the arguments of [get], among them
    [df.columns[1]], whether the name column exists or not. *)
Definition lookup_dict (id_col name_col : string) (df : DataFrame)
    : outcome (gmap value value) :=
  let! ids := getitem id_col df in
  let! second := columns_item 1 df in
  Done (py_dict (zip ids (py_iter (df_get name_col (PyStr second) df)))).

Definition products_dict (products : DataFrame) : outcome (gmap value value) :=
  lookup_dict "product_id" "product_name" products.

Definition cities_dict (cities : DataFrame) : outcome (gmap value value) :=
  lookup_dict "store_id" "city" cities.

(** ** Column operations of the loop body *)

(** The number a cell contributes to [Series.sum()]: missing cells are
    skipped, a string or a timestamp is a TypeError. *)
Definition as_number (v : value) : outcome Z :=
  match v with
  | VNum n => Done n
  | VNaN => Done 0
  | _ => Stop LoadingError
  end.

Fixpoint numbers (xs : list value) : outcome (list Z) :=
  match xs with
  | [] => Done []
  | v :: xs' =>
      let! n := as_number v in
      let! ns := numbers xs' in
      Done (n :: ns)
  end.

Definition sum_Z (ns : list Z) : Z := foldr Z.add 0 ns.

(** [series.sum()]. *)
Definition series_sum (xs : list value) : outcome Z :=
  let! ns := numbers xs in Done (sum_Z ns).

(** One more row for the group of key [k]. *)
Fixpoint add_group (k : value) (x : Z) (g : list (value * Z))
    : list (value * Z) :=
  match g with
  | [] => [(k, x)]
  | (k', y) :: g' =>
      if decide (k' = k) then (k', y + x) :: g' else (k', y) :: add_group k x g'
  end.

(** [df.groupby(key)[val].sum().items()]: one pair per distinct key with the
    sum of its rows; rows whose key is missing are left out (pandas'
    [dropna=True]).  The groups are listed here in order of first
    appearance; pandas lists them sorted, which makes no difference to the
    maps they are added to. *)
Definition groupby_sum (keys vals : list value) : outcome (list (value * Z)) :=
  let! ns := numbers vals in
  Done (foldl (λ g kx, if isna kx.1 then g else add_group kx.1 kx.2 g)
              [] (zip keys ns)).

(** [names.get(id, f"{label} {id}")], lines 101 and 107. *)
Definition display_name (names : gmap value value) (label : string)
    (id : value) : value :=
  default (VStr (label +:+ " " +:+ pystr id)) (names !! id).

(** [m[name] = m.get(name, 0) + rev], lines 102 and 108. *)
Definition credit (names : gmap value value) (label : string)
    (m : gmap value Z) (kx : value * Z) : gmap value Z :=
  let name := display_name names label kx.1 in
  <[name := default 0 (m !! name) + kx.2]> m.

(** [series.map(d)] with a dictionary: a key the dictionary lacks gives
    NaN. *)
Definition series_map (d : gmap value value) (xs : list value) : list value :=
  (λ v, default VNaN (d !! v)) <$> xs.

(** [series.dropna().tolist()] on a column of timestamps. *)
Definition valid_dates (xs : list value) : list Z :=
  omap (λ v, match v with VTime t => Some t | _ => None end) xs.

(** [pd.concat(frames, ignore_index=True)] for frames with the same
    columns. *)
Definition concat_frames (frames : list DataFrame) : DataFrame :=
  mkFrame (from_option columns [] (head frames)) (concat (rows <$> frames)).

(** [df.iloc[:n]]. *)
Definition iloc_head (n : nat) (df : DataFrame) : DataFrame :=
  mkFrame (columns df) (take n (rows df)).

(** [min(l)] and [max(l)] of a list that is not empty. *)
Definition list_min (l : list Z) : option Z :=
  match l with
  | [] => None
  | x :: l' => Some (foldl Z.min x l')
  end.

Definition list_max (l : list Z) : option Z :=
  match l with
  | [] => None
  | x :: l' => Some (foldl Z.max x l')
  end.

(** ** The accumulator (lines 68-77) *)

Record agg_data := mkAgg {
  total_revenue : Z;
  total_transactions : nat;
  min_date : option Z;
  max_date : option Z;
  product_revenue : gmap value Z;
  city_revenue : gmap value Z;
  dates : list Z
}.

Definition agg_init : agg_data :=
  mkAgg 0 0%nat None None ∅ ∅ [].

(** The loop state: the accumulator and the chunks kept for the sample. *)
Record loop_state := mkState {
  agg : agg_data;
  sample_rows : list DataFrame
}.

Definition state_init : loop_state := mkState agg_init [].

(** The number of chunks kept for the sample and the row cap of the
    sample (lines 111 and 123). *)
Definition sample_chunks : nat := 3.
Definition sample_cap : nat := Z.to_nat 50000.

(** ** The loader (lines 52-142) *)

Section Loader.

(** How [pd.to_datetime] reads a string: the timestamp, or nothing when the
    string is not a date. *)
Variable parse_date : string → option Z.

(** [pd.to_datetime(v, errors="coerce")] on one cell. *)
Definition to_datetime (v : value) : value :=
  match v with
  | VNum n => VTime n
  | VStr s => from_option VTime VNaT (parse_date s)
  | VTime t => VTime t
  | VNaN | VNaT => VNaT
  end.

(** Lines 89-91: the [date] column is parsed in place and its valid dates
    are added to the running list. *)
Definition parse_dates (chunk : DataFrame) (ds : list Z)
    : DataFrame * list Z :=
  match col_index "date" (columns chunk) with
  | Some i =>
      let chunk' := set_col "date" (to_datetime <$> column_at i chunk) chunk in
      (chunk', ds ++ valid_dates (column_at i chunk'))
  | None => (chunk, ds)
  end.

(** Lines 93-94. *)
Definition add_revenue (chunk : DataFrame) (total : Z) : outcome Z :=
  match col_index "revenue" (columns chunk) with
  | Some i => let! s := series_sum (column_at i chunk) in Done (total + s)
  | None => Done total
  end.

(** Lines 99-102 and 105-108: the revenue of the chunk, grouped by the id
    column [id_col], is added to the map under the display names. *)
Definition add_by_name (id_col label : string) (names : gmap value value)
    (chunk : DataFrame) (m : gmap value Z) : outcome (gmap value Z) :=
  match col_index id_col (columns chunk), col_index "revenue" (columns chunk) with
  | Some i, Some j =>
      let! groups := groupby_sum (column_at i chunk) (column_at j chunk) in
      Done (foldl (credit names label) m groups)
  | _, _ => Done m
  end.

(** Lines 112-116: the copy of the chunk with the two name columns. *)
Definition add_names (id_col name_col : string) (names : gmap value value)
    (df : DataFrame) : DataFrame :=
  match col_index id_col (columns df) with
  | Some i => set_col name_col (series_map names (column_at i df)) df
  | None => df
  end.

Definition chunk_merge (pd cd : gmap value value) (chunk : DataFrame)
    : DataFrame :=
  add_names "store_id" "city" cd (add_names "product_id" "product_name" pd chunk).

(** Lines 86-87. *)
Definition clean (chunk : DataFrame) : DataFrame :=
  fillna (drop_duplicates chunk).

(** The chunk as the aggregation and the sample see it: cleaned, with its
    dates parsed. *)
Definition prepared (chunk : DataFrame) : DataFrame :=
  (parse_dates (clean chunk) []).1.

(** One turn of the loop (lines 81-117). *)
Definition process_chunk (pd cd : gmap value value) (st : loop_state)
    (chunk : DataFrame) : outcome loop_state :=
  let a := agg st in
  let chunk := clean chunk in
  let '(chunk, ds) := parse_dates chunk (dates a) in
  let! revenue := add_revenue chunk (total_revenue a) in
  let transactions := (total_transactions a + len chunk)%nat in
  let! by_product :=
    add_by_name "product_id" "Product" pd chunk (product_revenue a) in
  let! by_city := add_by_name "store_id" "Store" cd chunk (city_revenue a) in
  let kept :=
    if decide (length (sample_rows st) < sample_chunks)%nat
    then sample_rows st ++ [chunk_merge pd cd chunk]
    else sample_rows st in
  Done (mkState (mkAgg revenue transactions (min_date a) (max_date a)
                       by_product by_city ds)
                kept).

(** The loop over the chunks the reader yields. *)
Fixpoint process_chunks (pd cd : gmap value value) (st : loop_state)
    (stream : list DataFrame) : outcome loop_state :=
  match stream with
  | [] => Done st
  | chunk :: stream' =>
      let! st' := process_chunk pd cd st chunk in
      process_chunks pd cd st' stream'
  end.

(** Lines 126-130. *)
Definition date_range (a : agg_data) : agg_data :=
  match dates a with
  | [] => a
  | ds => mkAgg (total_revenue a) (total_transactions a)
                (list_min ds) (list_max ds)
                (product_revenue a) (city_revenue a) []
  end.

(** Lines 119-135: what the loader does once the stream is exhausted. *)
Definition finish (st : loop_state) : outcome (agg_data * DataFrame) :=
  match sample_rows st with
  | [] => Stop NoDataFound
  | kept =>
      Done (date_range (agg st),
            iloc_head sample_cap (concat_frames kept))
  end.

(** The loader on a stream of chunks, with the two dictionaries built. *)
Definition aggregate (pd cd : gmap value value) (stream : list DataFrame)
    : outcome (agg_data * DataFrame) :=
  let! st := process_chunks pd cd state_init stream in
  finish st.

Definition load_sales_chunked (chunksize : nat) (fs : files)
    : outcome (agg_data * DataFrame) :=
  let! support := load_support_data fs in
  let! pd := products_dict support.1 in
  let! cd := cities_dict support.2 in
  match sales_csv fs with
  | None => Stop SalesFileMissing
  | Some sales =>
      let! stream := read_csv_chunks chunksize sales in
      aggregate pd cd stream
  end.

End Loader.

(** ** Derived figures (lines 146-148) *)

(** Python's [a / b] on numbers: a ZeroDivisionError ([None]) when [b] is
    zero, the exact quotient otherwise. *)
Definition truediv (a b : Z) : option Q :=
  if decide (b = 0) then None else Some (inject_Z a / inject_Z b)%Q.

(** [total_revenue / total_sales_count if total_sales_count > 0 else 0]. *)
Definition avg_ticket (a : agg_data) : option Q :=
  let total_sales_count := Z.of_nat (total_transactions a) in
  if decide (0 < total_sales_count)
  then truediv (total_revenue a) total_sales_count
  else Some 0%Q.

(** ** The rest of the script (lines 83, 149-183, 216-217) *)

(** Line 83: the progress shown after [chunk_count] chunks,
    [min(chunk_count * 0.1, 0.9)], as an exact fraction. *)
Definition progress (chunk_count : nat) : Q :=
  Qmin (inject_Z (Z.of_nat chunk_count) * (1 # 10)) (9 # 10).

(** [max(items, key=lambda x: x[1])] on a list that is not empty: an item
    replaces the best one so far only when its value is larger, so the
    first of the items with the largest value is returned. *)
Definition py_max_by_value (x : value * Z) (l : list (value * Z))
    : value * Z :=
  foldl (λ best kx, if decide (best.2 < kx.2) then kx else best) x l.

(** Line 149; [items] are the entries of [product_revenue] in the order of
    the dictionary. *)
Definition top_product (items : list (value * Z)) : value :=
  match items with
  | [] => VStr "N/A"
  | x :: l => (py_max_by_value x l).1
  end.

(** [timestamp.date()], as the number of the day since the epoch. *)
Definition ns_per_day : Z := 86400000000000.

Definition day (t : Z) : Z := t `div` ns_per_day.

(** [start <= v.date() <= stop] for a cell of a date column; a missing
    date compares false. *)
Definition within (start stop : Z) (v : value) : bool :=
  match v with
  | VTime t => bool_decide (start ≤ day t) && bool_decide (day t ≤ stop)
  | _ => false
  end.

(** Line 156: the dates of the sample are parsed once more, in place. *)
Definition reparse_dates (parse_date : string → option Z)
    (sample_data : DataFrame) : DataFrame :=
  match col_index "date" (columns sample_data) with
  | Some i =>
      set_col "date" (to_datetime parse_date <$> column_at i sample_data)
              sample_data
  | None => sample_data
  end.

(** Lines 153-156 and 170-185: the rows shown, for the range [start],
    [stop] picked in the sidebar.  Without a date range or a date column
    the whole sample is shown. *)
Definition filtered_data (parse_date : string → option Z) (a : agg_data)
    (sample_data : DataFrame) (start stop : Z) : DataFrame :=
  match min_date a, max_date a, col_index "date" (columns sample_data) with
  | Some _, Some _, Some i =>
      let sample_data := reparse_dates parse_date sample_data in
      mkFrame (columns sample_data)
              (filter (λ r, within start stop (cell i r)) (rows sample_data))
  | _, _, _ => sample_data
  end.

(** The range the sidebar starts with (lines 173-174). *)
Definition default_range (a : agg_data) : option (Z * Z) :=
  match min_date a, max_date a with
  | Some lo, Some hi => Some (day lo, day hi)
  | _, _ => None
  end.

(** What the Sales Trends tab does (lines 216-220): it writes that there is
    no date data, draws the daily sales, or fails on the revenue column. *)
Inductive trends :=
  | NoDateData
  | KeyError
  | TypeError
  | Chart (daily : list (value * Z)).

(** [series.dt.date] on one cell; a day is written as its number. *)
Definition dt_date (v : value) : value :=
  match v with
  | VTime t => VNum (day t)
  | _ => VNaT
  end.

(** Lines 216-217:
    [filtered_data.groupby(filtered_data["date"].dt.date)["revenue"].sum()]
    when the frame has a date column and a row. *)
Definition daily_sales (filtered : DataFrame) : trends :=
  match col_index "date" (columns filtered) with
  | Some i =>
      if decide (0 < len filtered)%nat then
        match col_index "revenue" (columns filtered) with
        | Some j =>
            match groupby_sum (dt_date <$> column_at i filtered)
                              (column_at j filtered) with
            | Done daily => Chart daily
            | Stop _ => TypeError
            end
        | None => KeyError
        end
      else NoDateData
  | None => NoDateData
  end.

(** ** Vocabulary of the statements *)

(** The two totals of a run, or the reason it stopped. *)
Definition totals (o : outcome (agg_data * DataFrame)) : outcome (Z * nat) :=
  match o with
  | Done (a, _) => Done (total_revenue a, total_transactions a)
  | Stop h => Stop h
  end.



(** [r[name]] for a row [r] of the frame [df]. *)
Definition row_get (df : DataFrame) (name : string) (r : row) : option value :=
  col_index name (columns df) ≫= λ i, r !! i.



(** A row with the cell of column [name] set to [v], and the columns that
    result: what [set_col] does to one row. *)
Definition put (name : string) (cols : list string) (r : row) (v : value)
    : row :=
  match col_index name cols with
  | Some i => <[i := v]> r
  | None => r ++ [v]
  end.

Definition cols_with (name : string) (cols : list string) : list string :=
  match col_index name cols with
  | Some _ => cols
  | None => cols ++ [name]
  end.

(** What line 90 does to one row of a frame with the columns [cols]. *)
Definition date_row (parse_date : string → option Z) (cols : list string)
    (r : row) : row :=
  match col_index "date" cols with
  | Some i => <[i := to_datetime parse_date (cell i r)]> r
  | None => r
  end.

(** The chunk as the sample keeps it. *)
Definition enriched (parse_date : string → option Z)
    (pd cd : gmap value value) (chunk : DataFrame) : DataFrame :=
  chunk_merge pd cd (prepared parse_date chunk).

(** The amounts of a list of (id, amount) pairs whose id is shown under the
    name [k], added up. *)
Definition tally_of (names : gmap value value) (label : string) (k : value)
    (kxs : list (value * Z)) : Z :=
  sum_Z (snd <$> filter (λ kx, display_name names label kx.1 = k) kxs).

(** The entry of the name [k] once the pairs [kxs] have been credited to
    the map [m]: untouched when no pair is shown under [k]. *)
Definition credited (names : gmap value value) (label : string)
    (m : gmap value Z) (k : value) (kxs : list (value * Z)) : option Z :=
  if decide (Exists (λ kx, display_name names label kx.1 = k) kxs)
  then Some (default 0 (m !! k) + tally_of names label k kxs)
  else m !! k.




(** The two totals of a loop state, or the reason the loop stopped. *)
Definition state_totals (o : outcome loop_state) : outcome (Z * nat) :=
  match o with
  | Done st => Done (total_revenue (agg st), total_transactions (agg st))
  | Stop h => Stop h
  end.


(** The date range of a run, or the reason it stopped. *)
Definition date_extremes (o : outcome (agg_data * DataFrame))
    : outcome (option Z * option Z) :=
  match o with
  | Done (a, _) => Done (min_date a, max_date a)
  | Stop h => Stop h
  end.

(** The parts of an outcome, for the examples. *)
Definition the_agg (o : outcome (agg_data * DataFrame)) : agg_data :=
  match o with
  | Done (a, _) => a
  | Stop _ => agg_init
  end.

Definition the_sample (o : outcome (agg_data * DataFrame)) : DataFrame :=
  match o with
  | Done (_, s) => s
  | Stop _ => mkFrame [] []
  end.

Definition the_value {A} (o : outcome A) (d : A) : A :=
  match o with
  | Done a => a
  | Stop _ => d
  end.

(** The valid dates a chunk adds to the running list. *)
Definition dates_of (parse_date : string → option Z) (chunk : DataFrame)
    : list Z :=
  match col_index "date" (columns chunk) with
  | Some i => valid_dates (column_at i (prepared parse_date chunk))
  | None => []
  end.


(** The columns of the sample of a file with the columns [cols]. *)
Definition sample_columns (cols : list string) : list string :=
  let cols1 :=
    match col_index "product_id" cols with
    | Some _ => cols_with "product_name" cols
    | None => cols
    end in
  match col_index "store_id" cols1 with
  | Some _ => cols_with "city" cols1
  | None => cols1
  end.

(** A cell that holds a date. *)
Definition is_time (v : value) : bool :=
  match v with
  | VTime _ => true
  | _ => false
  end.

(** ** Small files for the examples *)

(** A date parser that knows two days, given in nanoseconds since the
    epoch. *)
Definition parse_two_days (s : string) : option Z :=
  if decide (s = "2024-01-01") then Some 1704067200000000000
  else if decide (s = "2024-01-02") then Some 1704153600000000000
  else None.

Definition products_named : DataFrame :=
  mkFrame ["product_id"; "product_name"]
          [[VNum 1; VStr "Apple"]; [VNum 2; VStr "Pear"]].

(** A product table whose name column is not called [product_name]. *)
Definition products_positional : DataFrame :=
  mkFrame ["product_id"; "name"]
          [[VNum 1; VStr "Apple"]; [VNum 2; VStr "Pear"]].

Definition cities_named : DataFrame :=
  mkFrame ["store_id"; "city"] [[VNum 10; VStr "Oslo"]].

Definition sales_columns : list string :=
  ["date"; "revenue"; "product_id"; "store_id"].

(** Four different rows; product 7 and store 99 are in no lookup table,
    one date is not a date. *)
Definition sales_four : DataFrame :=
  mkFrame sales_columns
          [[VStr "2024-01-01"; VNum 5; VNum 1; VNum 10];
           [VStr "2024-01-02"; VNum 7; VNum 7; VNum 99];
           [VStr "soon"; VNum 3; VNum 7; VNum 10];
           [VStr "2024-01-02"; VNum 2; VNum 2; VNum 10]].

(** The same row twice. *)
Definition sales_twice : DataFrame :=
  mkFrame sales_columns
          [[VStr "2024-01-01"; VNum 5; VNum 1; VNum 10];
           [VStr "2024-01-01"; VNum 5; VNum 1; VNum 10]].

(** A header and no data row. *)
Definition sales_header_only : DataFrame := mkFrame sales_columns [].

(** One row whose date is missing. *)
Definition sales_missing_date : DataFrame :=
  mkFrame sales_columns [[VNaN; VNum 5; VNum 1; VNum 10]].

Definition files_with (sales : DataFrame) : files :=
  mkFiles (Some products_named) (Some cities_named) (Some sales).

Definition pd_named : gmap value value :=
  the_value (products_dict products_named) ∅.

Definition cd_named : gmap value value :=
  the_value (cities_dict cities_named) ∅.

(** The run on the four rows, one row per chunk. *)
Definition run_four : outcome (agg_data * DataFrame) :=
  load_sales_chunked parse_two_days 1 (files_with sales_four).

Definition stream_four : list DataFrame :=
  the_value (read_csv_chunks 1 sales_four) [].

(** A sales file without a revenue column, and one without a date
    column. *)
Definition sales_no_revenue : DataFrame :=
  mkFrame ["date"; "product_id"; "store_id"]
          [[VStr "2024-01-01"; VNum 1; VNum 10];
           [VStr "2024-01-02"; VNum 7; VNum 10]].

Definition sales_no_date : DataFrame :=
  mkFrame ["revenue"; "product_id"; "store_id"]
          [[VNum 5; VNum 1; VNum 10]; [VNum 7; VNum 7; VNum 99]].

Definition run_no_revenue : outcome (agg_data * DataFrame) :=
  load_sales_chunked parse_two_days 1 (files_with sales_no_revenue).

Definition run_no_date : outcome (agg_data * DataFrame) :=
  load_sales_chunked parse_two_days 1 (files_with sales_no_date).

Definition run_twice : outcome (agg_data * DataFrame) :=
  load_sales_chunked parse_two_days 1 (files_with sales_twice).

(** The two days the parser knows. *)
Definition first_day : Z := 1704067200000000000.
Definition second_day : Z := 1704153600000000000.

(** ** Lists, chunks and duplicates *)


Lemma chunks_go_concat {A} (fuel n : nat) (l : list A) :
  (0 < n)%nat → (length l ≤ fuel)%nat → concat (chunks_go fuel n l) = l.
Proof.
  intros Hn. revert l. induction fuel as [|fuel IH]; intros l Hl.
  - destruct l; simpl in *; [done | lia].
  - destruct l as [|x l]; [done |].
    change (chunks_go (S fuel) n (x :: l))
      with (take n (x :: l) :: chunks_go fuel n (drop n (x :: l))).
    simpl concat. rewrite IH.
    + apply take_drop.
    + rewrite length_drop. simpl in *. lia.
Qed.

Lemma chunks_concat {A} (n : nat) (l : list A) :
  (0 < n)%nat → concat (chunks n l) = l.
Proof. intros. apply chunks_go_concat; [done | lia]. Qed.

Lemma chunks_go_sublist {A} (fuel n : nat) (l c : list A) :
  c ∈ chunks_go fuel n l → c `sublist_of` l.
Proof.
  revert l. induction fuel as [|fuel IH]; intros l; simpl.
  - by intros ?%elem_of_nil.
  - destruct l as [|x l]; [by intros ?%elem_of_nil |].
    intros [-> | Hc]%elem_of_cons.
    + apply sublist_take.
    + etrans; [by apply IH | apply sublist_drop].
Qed.

Lemma chunks_go_nonempty {A} (fuel n : nat) (l : list A) :
  (0 < n)%nat → Forall (λ c, c ≠ []) (chunks_go fuel n l).
Proof.
  intros Hn. revert l. induction fuel as [|fuel IH]; intros l; simpl.
  - constructor.
  - destruct l as [|x l]; constructor; [| apply IH].
    destruct n; [lia | done].
Qed.

Lemma chunks_go_length {A} (fuel n : nat) (l : list A) :
  Forall (λ c, length c ≤ n)%nat (chunks_go fuel n l).
Proof.
  revert l. induction fuel as [|fuel IH]; intros l; simpl.
  - constructor.
  - destruct l as [|x l]; constructor; [| apply IH].
    rewrite length_take. lia.
Qed.



Lemma dedup_sublist (l : list row) : dedup l `sublist_of` l.
Proof.
  induction l as [|r l IH]; simpl; [done |].
  apply sublist_skip. etrans; [apply sublist_filter | done].
Qed.

Lemma dedup_is_NoDup (l : list row) : NoDup (dedup l).
Proof.
  induction l as [|r l IH]; simpl; [constructor |].
  constructor.
  - rewrite list_elem_of_filter. intros [Hne _]. by apply Hne.
  - by apply NoDup_filter.
Qed.

Lemma Forall_sublist {A} (P : A → Prop) (l1 l2 : list A) :
  l1 `sublist_of` l2 → Forall P l2 → Forall P l1.
Proof.
  induction 1 as [|x l1 l2 _ IH|x l1 l2 _ IH]; intros H; [done | |].
  - apply Forall_cons in H as [??]. constructor; auto.
  - apply Forall_cons in H as [??]. auto.
Qed.

(** ** Outcomes *)

Lemma obind_Done {A B} (m : outcome A) (f : A → outcome B) (b : B) :
  obind m f = Done b ↔ ∃ a, m = Done a ∧ f a = Done b.
Proof.
  destruct m as [a | h]; simpl; split.
  - eauto.
  - by intros (? & [= <-] & ?).
  - done.
  - by intros (? & ? & ?).
Qed.

Ltac inv_outcome :=
  repeat match goal with
  | H : obind _ _ = Done _ |- _ =>
      apply obind_Done in H; destruct H as (? & ? & H)
  | H : Done _ = Done _ |- _ => injection H as H
  | H : Stop _ = Done _ |- _ => discriminate H
  end.

(** ** Columns of a frame *)

Lemma col_index_Some (name : string) (cols : list string) (i : nat) :
  col_index name cols = Some i → cols !! i = Some name.
Proof.
  revert i. induction cols as [|c cols IH]; intros i; simpl; [done |].
  case_decide as Hc; [by intros [= <-]; subst |].
  destruct (col_index name cols); simpl; [| done].
  intros [= <-]. by apply IH.
Qed.

Lemma col_index_lt (name : string) (cols : list string) (i : nat) :
  col_index name cols = Some i → (i < length cols)%nat.
Proof. intros ?%col_index_Some. by eapply lookup_lt_Some. Qed.

Lemma col_index_ne (n1 n2 : string) (cols : list string) (i j : nat) :
  n1 ≠ n2 → col_index n1 cols = Some i → col_index n2 cols = Some j → i ≠ j.
Proof. intros Hn H1%col_index_Some H2%col_index_Some ->. congruence. Qed.

Lemma col_index_app_Some (name : string) (cols more : list string) (i : nat) :
  col_index name cols = Some i → col_index name (cols ++ more) = Some i.
Proof.
  revert i. induction cols as [|c cols IH]; intros i; simpl; [done |].
  case_decide; [done |].
  destruct (col_index name cols); simpl; [| done].
  intros [= <-]. by rewrite (IH _ eq_refl).
Qed.

Lemma col_index_app_None (name : string) (cols more : list string) :
  col_index name cols = None →
  col_index name (cols ++ more) = (λ i, length cols + i)%nat <$> col_index name more.
Proof.
  induction cols as [|c cols IH]; simpl.
  - intros _. by destruct (col_index name more).
  - case_decide; [done |].
    destruct (col_index name cols) eqn:E; simpl; [done |]. intros _.
    rewrite IH by done. by destruct (col_index name more).
Qed.

Lemma col_index_snoc_other (name other : string) (cols : list string) :
  name ≠ other → col_index name (cols ++ [other]) = col_index name cols.
Proof.
  intros Hne. destruct (col_index name cols) as [i|] eqn:E.
  - by apply col_index_app_Some.
  - rewrite col_index_app_None by done. simpl.
    by rewrite decide_False by congruence.
Qed.

Lemma col_index_snoc_new (name : string) (cols : list string) :
  col_index name cols = None →
  col_index name (cols ++ [name]) = Some (length cols).
Proof.
  intros E. rewrite col_index_app_None by done. simpl.
  rewrite decide_True by done. simpl. f_equal. lia.
Qed.

Lemma col_index_cols_with_other (name other : string) (cols : list string) :
  name ≠ other → col_index name (cols_with other cols) = col_index name cols.
Proof.
  intros Hne. unfold cols_with. destruct (col_index other cols); [done |].
  by apply col_index_snoc_other.
Qed.

Lemma zip_with_fmap_same {A B C} (f : A → B → C) (g : A → B) (l : list A) :
  zip_with f l (g <$> l) = (λ x, f x (g x)) <$> l.
Proof. induction l as [|x l IH]; csimpl; [done | by f_equal]. Qed.

(** Assigning a column computed row by row. *)
Lemma set_col_fmap (name : string) (g : row → value) (df : DataFrame) :
  set_col name (g <$> rows df) df =
  mkFrame (cols_with name (columns df))
          ((λ r, put name (columns df) r (g r)) <$> rows df).
Proof.
  unfold set_col, cols_with, put.
  destruct (col_index name (columns df)) as [i|]; f_equal.
  - apply (zip_with_fmap_same (λ r v, <[i := v]> r) g).
  - apply (zip_with_fmap_same (λ r v, r ++ [v]) g).
Qed.

Lemma put_length (name : string) (cols : list string) (r : row) (v : value) :
  length r = length cols →
  length (put name cols r v) = length (cols_with name cols).
Proof.
  unfold put, cols_with. intros Hr. destruct (col_index name cols).
  - by rewrite length_insert.
  - rewrite !length_app. simpl. lia.
Qed.

(** The cell just assigned. *)
Lemma put_get_same (name : string) (cols : list string) (r : row) (v : value)
    (p : nat) :
  length r = length cols →
  col_index name (cols_with name cols) = Some p →
  put name cols r v !! p = Some v.
Proof.
  unfold put, cols_with. intros Hr.
  destruct (col_index name cols) as [i|] eqn:E.
  - rewrite E. intros [= <-]. apply list_lookup_insert_eq.
    rewrite Hr. by eapply col_index_lt.
  - rewrite col_index_snoc_new by done. intros [= <-].
    rewrite lookup_app_r by lia. by rewrite Hr, Nat.sub_diag.
Qed.

(** The cells of the other columns. *)
Lemma put_get_other (name : string) (cols : list string) (r : row) (v : value)
    (other : string) (q : nat) :
  other ≠ name → col_index other cols = Some q →
  length r = length cols →
  put name cols r v !! q = r !! q.
Proof.
  unfold put. intros Hne Hq Hr.
  destruct (col_index name cols) as [i|] eqn:E.
  - apply list_lookup_insert_ne. intros ->.
    by eapply (col_index_ne other name).
  - apply lookup_app_l. rewrite Hr. by eapply col_index_lt.
Qed.

Lemma put_cell_other (name : string) (cols : list string) (r : row) (v : value)
    (i j : nat) :
  col_index name cols = Some i → i ≠ j →
  cell j (put name cols r v) = cell j r.
Proof.
  unfold put, cell. intros -> Hij.
  by rewrite list_lookup_total_insert_ne.
Qed.

(** ** One turn of the loop *)

Section LoaderFacts.

Variable parse_date : string → option Z.

Lemma parse_dates_fst (chunk : DataFrame) (ds : list Z) :
  (parse_dates parse_date chunk ds).1 = (parse_dates parse_date chunk []).1.
Proof. unfold parse_dates. by destruct (col_index "date" (columns chunk)). Qed.

Lemma parse_dates_snd (chunk : DataFrame) (ds : list Z) :
  (parse_dates parse_date chunk ds).2 =
  ds ++ (parse_dates parse_date chunk []).2.
Proof.
  unfold parse_dates. destruct (col_index "date" (columns chunk)); simpl.
  - done.
  - by rewrite app_nil_r.
Qed.

Lemma prepared_frame (chunk : DataFrame) :
  prepared parse_date chunk =
  mkFrame (columns chunk)
          (date_row parse_date (columns chunk) <$>
           (fill_row <$> dedup (rows chunk))).
Proof.
  unfold prepared, parse_dates, clean, date_row.
  change (columns (fillna (drop_duplicates chunk))) with (columns chunk).
  destruct (col_index "date" (columns chunk)) as [i|] eqn:E.
  - unfold column_at at 1. rewrite <- list_fmap_compose.
    rewrite (set_col_fmap "date" (to_datetime parse_date ∘ cell i)
               (fillna (drop_duplicates chunk))).
    simpl. unfold cols_with, put. by rewrite E.
  - by rewrite list_fmap_id.
Qed.

Lemma columns_prepared (chunk : DataFrame) :
  columns (prepared parse_date chunk) = columns chunk.
Proof. by rewrite prepared_frame. Qed.

Lemma len_prepared (chunk : DataFrame) :
  len (prepared parse_date chunk) = len (clean chunk).
Proof.
  rewrite prepared_frame. unfold len, clean. simpl.
  by rewrite !length_fmap.
Qed.

Lemma len_clean (chunk : DataFrame) :
  len (clean chunk) = length (dedup (rows chunk)).
Proof. unfold len, clean. simpl. by rewrite length_fmap. Qed.

(** What one successful turn of the loop leaves in the state. *)
Lemma process_chunk_Done (pd cd : gmap value value) (st st' : loop_state)
    (chunk : DataFrame) :
  process_chunk parse_date pd cd st chunk = Done st' →
  let c := prepared parse_date chunk in
  add_revenue c (total_revenue (agg st)) = Done (total_revenue (agg st')) ∧
  total_transactions (agg st') =
    (total_transactions (agg st) + len (clean chunk))%nat ∧
  add_by_name "product_id" "Product" pd c (product_revenue (agg st)) =
    Done (product_revenue (agg st')) ∧
  add_by_name "store_id" "Store" cd c (city_revenue (agg st)) =
    Done (city_revenue (agg st')) ∧
  dates (agg st') =
    dates (agg st) ++ (parse_dates parse_date (clean chunk) []).2 ∧
  min_date (agg st') = min_date (agg st) ∧
  max_date (agg st') = max_date (agg st) ∧
  sample_rows st' =
    if decide (length (sample_rows st) < sample_chunks)%nat
    then sample_rows st ++ [chunk_merge pd cd c]
    else sample_rows st.
Proof.
  unfold process_chunk. intros H.
  pose proof (parse_dates_fst (clean chunk) (dates (agg st))) as H1.
  pose proof (parse_dates_snd (clean chunk) (dates (agg st))) as H2.
  destruct (parse_dates parse_date (clean chunk) (dates (agg st)))
    as [c' ds]. simpl in H1, H2. subst c' ds.
  fold (prepared parse_date chunk) in H. inv_outcome. subst st'. simpl.
  rewrite <- len_prepared. done.
Qed.

(** ** The whole loop *)

Lemma process_chunks_transactions (pd cd : gmap value value)
    (stream : list DataFrame) (st st' : loop_state) :
  process_chunks parse_date pd cd st stream = Done st' →
  total_transactions (agg st') =
    (total_transactions (agg st) + sum_list_with (λ ch, len (clean ch)) stream)%nat.
Proof.
  revert st. induction stream as [|ch stream IH]; intros st; simpl.
  - intros [= <-]. lia.
  - intros H. inv_outcome.
    match goal with
    | H1 : process_chunk _ _ _ _ _ = Done _ |- _ =>
        apply process_chunk_Done in H1; destruct H1 as (_ & Ht & _)
    end.
    rewrite (IH _ H), Ht. lia.
Qed.

Lemma process_chunks_sample (pd cd : gmap value value)
    (stream : list DataFrame) (st st' : loop_state) :
  (length (sample_rows st) ≤ sample_chunks)%nat →
  process_chunks parse_date pd cd st stream = Done st' →
  sample_rows st' =
    take sample_chunks (sample_rows st ++ (enriched parse_date pd cd <$> stream)).
Proof.
  revert st. induction stream as [|ch stream IH]; intros st Hlen; simpl.
  - intros [= <-]. rewrite app_nil_r. by rewrite take_ge.
  - intros H. inv_outcome.
    match goal with
    | H1 : process_chunk _ _ _ _ _ = Done _ |- _ =>
        apply process_chunk_Done in H1;
        destruct H1 as (_ & _ & _ & _ & _ & _ & _ & Hs)
    end.
    fold (enriched parse_date pd cd ch) in Hs.
    case_decide as Hlt.
    + rewrite (IH _ ltac:(rewrite Hs, length_app; simpl; lia) H), Hs.
      by rewrite <- app_assoc.
    + rewrite (IH _ ltac:(rewrite Hs; lia) H), Hs.
      rewrite !take_app_le by lia. done.
Qed.

Lemma process_chunks_dates (pd cd : gmap value value)
    (stream : list DataFrame) (st st' : loop_state) :
  process_chunks parse_date pd cd st stream = Done st' →
  dates (agg st') =
    dates (agg st) ++
    concat ((λ ch, (parse_dates parse_date (clean ch) []).2) <$> stream) ∧
  min_date (agg st') = min_date (agg st) ∧
  max_date (agg st') = max_date (agg st).
Proof.
  revert st. induction stream as [|ch stream IH]; intros st; simpl.
  - intros [= <-]. by rewrite app_nil_r.
  - intros H. inv_outcome.
    match goal with
    | H1 : process_chunk _ _ _ _ _ = Done _ |- _ =>
        apply process_chunk_Done in H1;
        destruct H1 as (_ & _ & _ & _ & Hd & Hmin & Hmax & _)
    end.
    destruct (IH _ H) as (-> & -> & ->).
    by rewrite Hd, Hmin, Hmax, <- app_assoc.
Qed.

(** What a successful run went through. *)
Lemma load_sales_chunked_Done (chunksize : nat) (fs : files)
    (a : agg_data) (s : DataFrame) :
  load_sales_chunked parse_date chunksize fs = Done (a, s) →
  ∃ products cities sales pd cd stream st,
    product_hierarchy_csv fs = Some products ∧
    store_cities_csv fs = Some cities ∧
    sales_csv fs = Some sales ∧
    products_dict products = Done pd ∧
    cities_dict cities = Done cd ∧
    read_csv_chunks chunksize sales = Done stream ∧
    process_chunks parse_date pd cd state_init stream = Done st ∧
    sample_rows st ≠ [] ∧
    a = date_range (agg st) ∧
    s = iloc_head sample_cap (concat_frames (sample_rows st)).
Proof.
  unfold load_sales_chunked, load_support_data, aggregate, finish.
  intros H.
  destruct (product_hierarchy_csv fs) as [products|]; [| done].
  destruct (store_cities_csv fs) as [cities|]; [| done].
  simpl in H. inv_outcome.
  destruct (sales_csv fs) as [sales|]; [| done].
  inv_outcome.
  match goal with
  | st : loop_state |- _ => destruct (sample_rows st) eqn:Es; [done |]
  end.
  injection H as <- <-.
  eexists _, _, _, _, _, _, _. repeat split; try done.
  - by rewrite Es.
  - by rewrite Es.
Qed.

Lemma date_range_totals (a : agg_data) :
  total_revenue (date_range a) = total_revenue a ∧
  total_transactions (date_range a) = total_transactions a ∧
  product_revenue (date_range a) = product_revenue a ∧
  city_revenue (date_range a) = city_revenue a.
Proof. unfold date_range. by destruct (dates a). Qed.

(** ** The sample *)

Lemma add_names_frame (id_col name_col : string) (names : gmap value value)
    (df : DataFrame) :
  add_names id_col name_col names df =
  match col_index id_col (columns df) with
  | Some i =>
      mkFrame (cols_with name_col (columns df))
              ((λ r, put name_col (columns df) r
                       (default VNaN (names !! cell i r))) <$> rows df)
  | None => df
  end.
Proof.
  unfold add_names. destruct (col_index id_col (columns df)) as [i|]; [| done].
  unfold series_map, column_at. rewrite <- list_fmap_compose.
  apply (set_col_fmap name_col (λ r, default VNaN (names !! cell i r))).
Qed.

Lemma len_add_names (id_col name_col : string) (names : gmap value value)
    (df : DataFrame) :
  len (add_names id_col name_col names df) = len df.
Proof.
  rewrite add_names_frame. destruct (col_index id_col (columns df)); [| done].
  unfold len. simpl. by rewrite length_fmap.
Qed.

Lemma len_enriched (pd cd : gmap value value) (chunk : DataFrame) :
  len (enriched parse_date pd cd chunk) = len (clean chunk).
Proof.
  unfold enriched, chunk_merge. by rewrite !len_add_names, len_prepared.
Qed.

Lemma length_concat_with {A B} (f : A → list B) (l : list A) :
  length (concat (f <$> l)) = sum_list_with (λ x, length (f x)) l.
Proof.
  induction l as [|x l IH]; csimpl; [done |]. by rewrite length_app, IH.
Qed.

Lemma sum_list_with_eq {A} (f g : A → nat) (l : list A) :
  (∀ x, f x = g x) → sum_list_with f l = sum_list_with g l.
Proof. intros E. induction l as [|x l IH]; simpl; [done |]. by rewrite E, IH. Qed.

(** C6. The transaction count of a run is the number of rows of all the
    chunks read, each chunk counted after its own duplicate removal and
    fill; no condition on a revenue column enters. *)
Theorem total_transactions_counts_cleaned_rows (chunksize : nat) (fs : files)
    (sales : DataFrame) (stream : list DataFrame)
    (a : agg_data) (s : DataFrame) :
  sales_csv fs = Some sales →
  read_csv_chunks chunksize sales = Done stream →
  load_sales_chunked parse_date chunksize fs = Done (a, s) →
  total_transactions a =
    sum_list_with (λ chunk, len (fillna (drop_duplicates chunk))) stream.
Proof.
  intros Hs Hr H. apply load_sales_chunked_Done in H.
  destruct H as (? & ? & sales' & pd & cd & stream' & st & _ & _ & Hs' & _ & _
                 & Hr' & Hp & _ & -> & _).
  assert (sales' = sales) as -> by congruence.
  assert (stream' = stream) as -> by congruence.
  destruct (date_range_totals (agg st)) as (_ & -> & _).
  by rewrite (process_chunks_transactions _ _ _ _ _ Hp).
Qed.

(** C4. The sample of a run is cut from the first three chunks only, each
    cleaned and enriched: it has min(rows of these chunks, 50000) rows, and
    it is a prefix, in read order, of the cleaned and enriched rows of the
    whole stream.  The chunks after the third are not in the sample, and
    they are counted all the same. *)
Theorem sample_is_capped_prefix (chunksize : nat) (fs : files)
    (products cities sales : DataFrame) (pd cd : gmap value value)
    (stream : list DataFrame) (a : agg_data) (s : DataFrame) :
  product_hierarchy_csv fs = Some products →
  store_cities_csv fs = Some cities →
  sales_csv fs = Some sales →
  products_dict products = Done pd →
  cities_dict cities = Done cd →
  read_csv_chunks chunksize sales = Done stream →
  load_sales_chunked parse_date chunksize fs = Done (a, s) →
  let kept := take sample_chunks stream in
  rows s =
    take sample_cap (concat (rows <$> (enriched parse_date pd cd <$> kept))) ∧
  length (rows s) =
    (sum_list_with (λ chunk, len (clean chunk)) kept `min` sample_cap)%nat ∧
  rows s `prefix_of`
    concat (rows <$> (enriched parse_date pd cd <$> stream)) ∧
  total_transactions a = sum_list_with (λ chunk, len (clean chunk)) stream.
Proof.
  intros Hp Hc Hs Hpd Hcd Hr H kept. apply load_sales_chunked_Done in H.
  destruct H as (products' & cities' & sales' & pd' & cd' & stream' & st
                 & Hp' & Hc' & Hs' & Hpd' & Hcd' & Hr' & Hl & _ & -> & ->).
  assert (products' = products) as -> by congruence.
  assert (cities' = cities) as -> by congruence.
  assert (sales' = sales) as -> by congruence.
  assert (pd' = pd) as -> by congruence.
  assert (cd' = cd) as -> by congruence.
  assert (stream' = stream) as -> by congruence.
  pose proof (process_chunks_transactions _ _ _ _ _ Hl) as Hcount.
  apply process_chunks_sample in Hl; [| simpl; lia].
  simpl in Hl. rewrite <- fmap_take in Hl. fold kept in Hl.
  assert (rows (iloc_head sample_cap (concat_frames (sample_rows st))) =
          take sample_cap
            (concat (rows <$> (enriched parse_date pd cd <$> kept)))) as E.
  { by rewrite Hl. }
  split; [done |]. rewrite E. split; [| split].
  - rewrite length_take, <- list_fmap_compose, length_concat_with.
    rewrite Nat.min_comm. f_equal.
    apply sum_list_with_eq. intros ch. apply len_enriched.
  - etrans; [apply prefix_take |].
    unfold kept. rewrite <- (take_drop sample_chunks stream) at 2.
    rewrite !fmap_app, concat_app. by apply prefix_app_r.
  - destruct (date_range_totals (agg st)) as (_ & -> & _). by rewrite Hcount.
Qed.

(** ** Rectangular frames *)

Lemma rectangular_sublist (cols : list string) (rs rs' : list row) :
  rs' `sublist_of` rs →
  rectangular (mkFrame cols rs) → rectangular (mkFrame cols rs').
Proof. unfold rectangular. simpl. intros Hsub. by apply Forall_sublist. Qed.

Lemma rectangular_prepared (chunk : DataFrame) :
  rectangular chunk → rectangular (prepared parse_date chunk).
Proof.
  unfold rectangular. rewrite prepared_frame. simpl. intros H.
  rewrite !Forall_fmap.
  eapply Forall_impl; [eapply Forall_sublist; [apply dedup_sublist | done] |].
  intros r Hr. simpl. unfold date_row, fill_row.
  destruct (col_index "date" (columns chunk));
    by rewrite ?length_insert, length_fmap.
Qed.

Lemma rectangular_add_names (id_col name_col : string)
    (names : gmap value value) (df : DataFrame) :
  rectangular df → rectangular (add_names id_col name_col names df).
Proof.
  rewrite add_names_frame. destruct (col_index id_col (columns df)); [| done].
  unfold rectangular. simpl. intros H. rewrite Forall_fmap.
  eapply Forall_impl; [done |]. intros r Hr. simpl. by apply put_length.
Qed.

Lemma columns_add_names (id_col name_col : string) (names : gmap value value)
    (df : DataFrame) :
  columns (add_names id_col name_col names df) =
  match col_index id_col (columns df) with
  | Some _ => cols_with name_col (columns df)
  | None => columns df
  end.
Proof.
  rewrite add_names_frame. by destruct (col_index id_col (columns df)).
Qed.

Lemma columns_enriched (pd cd : gmap value value) (c1 c2 : DataFrame) :
  columns c1 = columns c2 →
  columns (enriched parse_date pd cd c1) =
  columns (enriched parse_date pd cd c2).
Proof.
  intros E. unfold enriched, chunk_merge.
  rewrite !columns_add_names, !columns_prepared, E. done.
Qed.

(** The rows of a frame after [add_names]: each comes from a row of the
    frame, keeps the cells of the other columns, and holds in the name
    column what the dictionary has for its id, NaN when it has nothing. *)
Lemma add_names_rows (id_col name_col : string) (names : gmap value value)
    (df : DataFrame) (r' : row) :
  rectangular df → id_col ≠ name_col →
  r' ∈ rows (add_names id_col name_col names df) →
  let df' := add_names id_col name_col names df in
  (∀ v, row_get df' id_col r' = Some v →
        row_get df' name_col r' = Some (default VNaN (names !! v))) ∧
  ∃ r, r ∈ rows df ∧
       ∀ other, other ≠ name_col → row_get df' other r' = row_get df other r.
Proof.
  intros Hrect Hne Hin df'. subst df'. revert Hin.
  rewrite add_names_frame. unfold row_get.
  destruct (col_index id_col (columns df)) as [i|] eqn:Ei; simpl.
  - intros (r & -> & Hr)%list_elem_of_fmap.
    assert (length r = length (columns df)) as Hlen.
    { unfold rectangular in Hrect. rewrite Forall_forall in Hrect. auto. }
    split.
    + intros v. rewrite col_index_cols_with_other, Ei by done. simpl.
      rewrite (put_get_other name_col _ r _ id_col i) by done. intros Hv.
      assert (is_Some (col_index name_col (cols_with name_col (columns df))))
        as [p Hp].
      { unfold cols_with.
        destruct (col_index name_col (columns df)) eqn:E; [by rewrite E |].
        by rewrite col_index_snoc_new. }
      rewrite Hp. simpl. rewrite (put_get_same _ _ _ _ p Hlen Hp).
      unfold cell. by rewrite (list_lookup_total_correct _ _ _ Hv).
    + exists r. split; [done |]. intros other Ho.
      rewrite col_index_cols_with_other by done.
      destruct (col_index other (columns df)) as [q|] eqn:Eq; [| done]. simpl.
      by apply (put_get_other name_col _ r _ other q).
  - intros Hin. split.
    + intros v. by rewrite Ei.
    + by exists r'.
Qed.

(** The rows of an enriched chunk, for both name columns. *)
Lemma chunk_merge_rows (pd cd : gmap value value) (df : DataFrame) (r : row) :
  rectangular df →
  r ∈ rows (chunk_merge pd cd df) →
  let m := chunk_merge pd cd df in
  (∀ pid, row_get m "product_id" r = Some pid →
          row_get m "product_name" r = Some (default VNaN (pd !! pid))) ∧
  (∀ sid, row_get m "store_id" r = Some sid →
          row_get m "city" r = Some (default VNaN (cd !! sid))).
Proof.
  intros Hrect Hin m. subst m. unfold chunk_merge in *.
  set (df1 := add_names "product_id" "product_name" pd df) in *.
  assert (rectangular df1) as Hrect1 by by apply rectangular_add_names.
  destruct (add_names_rows "store_id" "city" cd df1 r Hrect1 ltac:(done) Hin)
    as (Hcity & r1 & Hr1 & Hkeep).
  destruct (add_names_rows "product_id" "product_name" pd df r1 Hrect
              ltac:(done) Hr1) as (Hprod & _).
  split; [| done].
  intros pid. rewrite !Hkeep by done. apply Hprod.
Qed.

(** The chunks the reader yields have the columns of the file and rows of
    the file. *)
Lemma read_csv_chunks_Done (chunksize : nat) (sales : DataFrame)
    (stream : list DataFrame) :
  read_csv_chunks chunksize sales = Done stream →
  (0 < chunksize)%nat ∧ stream ≠ [] ∧
  concat (rows <$> stream) = rows sales ∧
  Forall (λ ch, columns ch = columns sales ∧
                rows ch `sublist_of` rows sales) stream.
Proof.
  unfold read_csv_chunks. case_decide as Hc; [done |].
  destruct (rows sales) as [|r rs] eqn:E.
  - intros [= <-]. split; [lia |]. split; [done |]. split; [done |].
    by repeat constructor.
  - intros H.
    assert (stream = mkFrame (columns sales) <$> chunks chunksize (r :: rs))
      as -> by congruence.
    clear H. split; [lia |]. split.
    { unfold chunks. simpl. destruct chunksize; done. }
    split.
    + rewrite <- list_fmap_compose.
      change (rows ∘ mkFrame (columns sales)) with (@id (list row)).
      rewrite list_fmap_id. apply chunks_concat. lia.
    + rewrite Forall_fmap, Forall_forall. intros c Hcin. simpl. split; [done |].
      by eapply chunks_go_sublist.
Qed.

Lemma elem_of_concat {A} (x : A) (ls : list (list A)) :
  x ∈ concat ls → ∃ l, l ∈ ls ∧ x ∈ l.
Proof.
  induction ls as [|l ls IH]; simpl.
  - by intros ?%elem_of_nil.
  - intros [H | H]%elem_of_app.
    + exists l. split; [left | done].
    + destruct (IH H) as (l' & ? & ?). exists l'. split; [by right | done].
Qed.

Lemma row_get_columns (d1 d2 : DataFrame) (name : string) (r : row) :
  columns d1 = columns d2 → row_get d1 name r = row_get d2 name r.
Proof. unfold row_get. by intros ->. Qed.

(** Every row of the sample is a row of one enriched chunk, and the sample
    has the columns of that chunk. *)
Lemma sample_rows_from_chunks (chunksize : nat) (fs : files)
    (products cities sales : DataFrame) (pd cd : gmap value value)
    (a : agg_data) (s : DataFrame) (r : row) :
  product_hierarchy_csv fs = Some products →
  store_cities_csv fs = Some cities →
  sales_csv fs = Some sales →
  products_dict products = Done pd →
  cities_dict cities = Done cd →
  load_sales_chunked parse_date chunksize fs = Done (a, s) →
  r ∈ rows s →
  ∃ chunk, columns chunk = columns sales ∧
           rows chunk `sublist_of` rows sales ∧
           columns s = columns (enriched parse_date pd cd chunk) ∧
           r ∈ rows (enriched parse_date pd cd chunk).
Proof.
  intros Hp Hc Hs Hpd Hcd H Hr. apply load_sales_chunked_Done in H.
  destruct H as (products' & cities' & sales' & pd' & cd' & stream & st
                 & Hp' & Hc' & Hs' & Hpd' & Hcd' & Hread & Hl & Hne & _ & ->).
  assert (products' = products) as -> by congruence.
  assert (cities' = cities) as -> by congruence.
  assert (sales' = sales) as -> by congruence.
  assert (pd' = pd) as -> by congruence.
  assert (cd' = cd) as -> by congruence.
  apply read_csv_chunks_Done in Hread as (_ & _ & _ & Hall).
  rewrite Forall_forall in Hall.
  apply process_chunks_sample in Hl; [| simpl; lia]. simpl in Hl.
  simpl in Hr. apply subseteq_take in Hr.
  apply elem_of_concat in Hr as (l & Hl' & Hr).
  apply list_elem_of_fmap in Hl' as (fr & -> & Hfr).
  rewrite Hl in Hfr. pose proof Hfr as Hfr'.
  apply subseteq_take, list_elem_of_fmap in Hfr' as (chunk & -> & Hch).
  destruct (Hall _ Hch) as [Hcols Hsub].
  exists chunk. repeat split; try done.
  unfold concat_frames. simpl.
  destruct (sample_rows st) as [|fr0 kept] eqn:Ek; [done |]. simpl.
  assert (fr0 ∈ take sample_chunks (enriched parse_date pd cd <$> stream))
    as Hfr0 by (rewrite <- Hl; left).
  apply subseteq_take, list_elem_of_fmap in Hfr0 as (c0 & -> & Hc0).
  apply columns_enriched. destruct (Hall _ Hc0) as [-> _]. done.
Qed.

(** C10. In the sample, a row whose product id (store id) the lookup table
    lacks holds NaN in the added [product_name] ([city]) column, which is
    not the label "Product {id}" ("Store {id}") the revenue maps use. *)
Theorem sample_name_of_unknown_id_is_NaN (chunksize : nat) (fs : files)
    (products cities sales : DataFrame) (pd cd : gmap value value)
    (a : agg_data) (s : DataFrame) (r : row) :
  product_hierarchy_csv fs = Some products →
  store_cities_csv fs = Some cities →
  sales_csv fs = Some sales →
  products_dict products = Done pd →
  cities_dict cities = Done cd →
  rectangular sales →
  load_sales_chunked parse_date chunksize fs = Done (a, s) →
  r ∈ rows s →
  (∀ pid, row_get s "product_id" r = Some pid → pd !! pid = None →
          row_get s "product_name" r = Some VNaN ∧
          VNaN ≠ display_name pd "Product" pid) ∧
  (∀ sid, row_get s "store_id" r = Some sid → cd !! sid = None →
          row_get s "city" r = Some VNaN ∧
          VNaN ≠ display_name cd "Store" sid).
Proof.
  intros Hp Hc Hs Hpd Hcd Hrect H Hr.
  destruct (sample_rows_from_chunks _ _ _ _ _ _ _ _ _ _ Hp Hc Hs Hpd Hcd H Hr)
    as (chunk & Hcols & Hsub & Hscols & Hin).
  assert (rectangular chunk) as Hrc.
  { destruct chunk as [cols rs]. simpl in *. subst cols.
    apply (rectangular_sublist _ (rows sales)); [done |].
    by destruct sales. }
  apply rectangular_prepared in Hrc.
  destruct (chunk_merge_rows pd cd _ r Hrc Hin) as [Hprod Hcity].
  fold (enriched parse_date pd cd chunk) in Hprod, Hcity.
  split.
  - intros pid Hid Hnone.
    rewrite !(row_get_columns s _ _ _ Hscols) in *.
    rewrite (Hprod _ Hid), Hnone. split; [done |].
    unfold display_name. by rewrite Hnone.
  - intros sid Hid Hnone.
    rewrite !(row_get_columns s _ _ _ Hscols) in *.
    rewrite (Hcity _ Hid), Hnone. split; [done |].
    unfold display_name. by rewrite Hnone.
Qed.

(** ** Sums of columns and of maps *)




Lemma series_sum_Done (xs : list value) (s : Z) :
  series_sum xs = Done s ↔ ∃ ns, numbers xs = Done ns ∧ s = sum_Z ns.
Proof.
  unfold series_sum. rewrite obind_Done. split.
  - intros (ns & ? & [= <-]). eauto.
  - intros (ns & ? & ->). eauto.
Qed.









(** ** Per-name revenue *)








Section Buckets.

Variable names : gmap value value.
Variable label : string.

Local Abbreviation shown k := (λ kx : value * Z, display_name names label kx.1 = k).

Lemma tally_of_none (k : value) (kxs : list (value * Z)) :
  ¬ Exists (shown k) kxs → tally_of names label k kxs = 0.
Proof.
  intros Hno. unfold tally_of.
  induction kxs as [|kx kxs IH]; [done |].
  rewrite filter_cons_False by (intros ?; apply Hno; by left).
  apply IH. intros ?. apply Hno. by right.
Qed.


Lemma tally_of_cons (k : value) (kx : value * Z) (kxs : list (value * Z)) :
  tally_of names label k (kx :: kxs) =
  (if decide (display_name names label kx.1 = k) then kx.2 else 0) +
  tally_of names label k kxs.
Proof.
  unfold tally_of. case_decide.
  - by rewrite filter_cons_True by done.
  - rewrite filter_cons_False by done. lia.
Qed.

Lemma credit_lookup (m : gmap value Z) (kx : value * Z) (k : value) :
  credit names label m kx !! k =
  if decide (display_name names label kx.1 = k)
  then Some (default 0 (m !! k) + kx.2) else m !! k.
Proof.
  unfold credit. rewrite lookup_insert. case_decide; [by subst | done].
Qed.

(** Crediting pairs one after the other. *)
Lemma foldl_credit_lookup (g : list (value * Z)) (m : gmap value Z)
    (k : value) :
  foldl (credit names label) m g !! k = credited names label m k g.
Proof.
  unfold credited. revert m. induction g as [|kx g IH]; intros m; cbn [foldl].
  - rewrite decide_False; [done |]. by intros ?%Exists_nil.
  - rewrite IH, credit_lookup, tally_of_cons.
    destruct (decide (display_name names label kx.1 = k)) as [Hk | Hk].
    + rewrite (decide_True (P := Exists _ (kx :: g))) by by left.
      case_decide as Hg; simpl; [f_equal; lia |].
      rewrite (tally_of_none _ _ Hg). f_equal. lia.
    + apply decide_ext. rewrite Exists_cons. tauto.
Qed.



Local Abbreviation step :=
  (λ (g : list (value * Z)) (kx : value * Z),
     if isna kx.1 then g else add_group kx.1 kx.2 g).
Local Abbreviation present := (λ kx : value * Z, isna kx.1 = false).





End Buckets.









(** ** The totals and the chunk size *)

Lemma add_by_name_succeeds (id_col label : string) (names : gmap value value)
    (c : DataFrame) (m : gmap value Z) (t t' : Z) :
  add_revenue c t = Done t' →
  ∃ m', add_by_name id_col label names c m = Done m'.
Proof.
  unfold add_revenue, add_by_name, groupby_sum, series_sum.
  destruct (col_index id_col (columns c)); [| by eauto].
  destruct (col_index "revenue" (columns c)); [| by eauto].
  destruct (numbers _); simpl; [by eauto | done].
Qed.

(** The totals after one turn depend on the revenue column only. *)
Lemma process_chunk_totals (pd cd : gmap value value) (st : loop_state)
    (chunk : DataFrame) :
  state_totals (process_chunk parse_date pd cd st chunk) =
  let! t := add_revenue (prepared parse_date chunk) (total_revenue (agg st)) in
  Done (t, (total_transactions (agg st) + len (clean chunk))%nat).
Proof.
  unfold process_chunk.
  pose proof (parse_dates_fst (clean chunk) (dates (agg st))) as H1.
  destruct (parse_dates parse_date (clean chunk) (dates (agg st)))
    as [c' ds]. simpl in H1. subst c'.
  fold (prepared parse_date chunk).
  destruct (add_revenue (prepared parse_date chunk) (total_revenue (agg st)))
    as [t|h] eqn:E; simpl; [| done].
  destruct (add_by_name_succeeds "product_id" "Product" pd _
              (product_revenue (agg st)) _ _ E) as [m1 ->].
  destruct (add_by_name_succeeds "store_id" "Store" cd _
              (city_revenue (agg st)) _ _ E) as [m2 ->].
  simpl. by rewrite len_prepared.
Qed.









(** ** The reasons a run stops *)

Lemma numbers_Stop (xs : list value) (h : halt) :
  numbers xs = Stop h → h = LoadingError.
Proof.
  induction xs as [|v xs IH]; simpl; [done |].
  destruct v; simpl; try by intros [= <-].
  - destruct (numbers xs); simpl; [done |]. intros [= <-]. by apply IH.
  - destruct (numbers xs); simpl; [done |]. intros [= <-]. by apply IH.
Qed.

Lemma process_chunk_Stop (pd cd : gmap value value) (st : loop_state)
    (chunk : DataFrame) (h : halt) :
  process_chunk parse_date pd cd st chunk = Stop h → h = LoadingError.
Proof.
  intros H.
  assert (state_totals (process_chunk parse_date pd cd st chunk) = Stop h)
    as Ht by by rewrite H.
  rewrite process_chunk_totals in Ht. unfold add_revenue, series_sum in Ht.
  destruct (col_index "revenue" _); [| done].
  destruct (numbers _) eqn:E; [done |]. simpl in Ht. injection Ht as <-.
  by eapply numbers_Stop.
Qed.

Lemma process_chunks_Stop (pd cd : gmap value value) (stream : list DataFrame)
    (st : loop_state) (h : halt) :
  process_chunks parse_date pd cd st stream = Stop h → h = LoadingError.
Proof.
  revert st. induction stream as [|ch stream IH]; intros st; simpl; [done |].
  destruct (process_chunk parse_date pd cd st ch) eqn:E; simpl.
  - apply IH.
  - intros [= <-]. by eapply process_chunk_Stop.
Qed.

Lemma lookup_dict_Stop (id_col name_col : string) (df : DataFrame) (h : halt) :
  lookup_dict id_col name_col df = Stop h → h = LoadingError.
Proof.
  unfold lookup_dict, getitem, columns_item.
  destruct (col_index id_col (columns df)); simpl; [| by intros [= <-]].
  destruct (columns df !! 1%nat); simpl; [done | by intros [= <-]].
Qed.

(** The message of line 120 is never shown: the reader always yields a
    chunk, and the first chunk is always kept for the sample. *)
Lemma load_sales_chunked_never_NoDataFound (chunksize : nat) (fs : files) :
  load_sales_chunked parse_date chunksize fs ≠ Stop NoDataFound.
Proof.
  unfold load_sales_chunked, load_support_data.
  destruct (product_hierarchy_csv fs); [| done].
  destruct (store_cities_csv fs); [| done]. simpl.
  destruct (products_dict _) eqn:Ep; simpl;
    [| by apply lookup_dict_Stop in Ep as ->].
  destruct (cities_dict _) eqn:Ec; simpl;
    [| by apply lookup_dict_Stop in Ec as ->].
  destruct (sales_csv fs) as [sales|]; [| done].
  destruct (read_csv_chunks chunksize sales) as [stream|h] eqn:Er; simpl.
  - apply read_csv_chunks_Done in Er as (_ & Hne & _).
    unfold aggregate.
    destruct (process_chunks _ _ _ _ _) as [st|h] eqn:El; simpl.
    + apply process_chunks_sample in El; [| simpl; lia]. simpl in El.
      unfold finish. destruct (sample_rows st); [| done].
      by destruct stream.
    + by apply process_chunks_Stop in El as ->.
  - unfold read_csv_chunks in Er. case_decide; [by injection Er as <- |].
    by destruct (rows sales).
Qed.

End LoaderFacts.

(** ** A run that returns *)

Section Returns.

Variable parse_date : string → option Z.






(** Were the reader to yield no chunk at all, the loader would stop with
    the message of line 120: the test is on the chunks kept, not on the
    rows read. *)
Lemma aggregate_no_chunk (pd cd : gmap value value) :
  aggregate parse_date pd cd [] = Stop NoDataFound.
Proof. done. Qed.

End Returns.

(** ** The lookup dictionaries *)


(** Without it, the ids are paired with the characters of the name of the
    second column, not with the cells of that column. *)
Lemma lookup_dict_positional (id_col name_col second : string)
    (df : DataFrame) (i : nat) :
  col_index id_col (columns df) = Some i →
  col_index name_col (columns df) = None →
  columns df !! 1%nat = Some second →
  lookup_dict id_col name_col df =
  Done (py_dict (zip (column_at i df) (py_iter (PyStr second)))).
Proof.
  unfold lookup_dict, getitem, columns_item, df_get. by intros -> -> ->.
Qed.

(** C2, on the code. For the product table with the columns [product_id]
    and [name] and the rows (1, Apple) and (2, Pear), the dictionary maps 1
    to "n" and 2 to "a", the first characters of the column name, and not
    to Apple and Pear. *)
Theorem positional_fallback_pairs_ids_with_header_characters :
  products_dict products_positional =
  Done (<[VNum 2 := VStr "a"]> {[VNum 1 := VStr "n"]}) ∧
  the_value (products_dict products_positional) ∅ !! VNum 1 ≠
  Some (VStr "Apple").
Proof. split; [by vm_compute | by vm_compute]. Qed.

(** ** Dates *)

(** A string that is not a date leaves no date behind. *)
Lemma unparseable_date_is_dropped (parse_date : string → option Z)
    (s : string) :
  parse_date s = None → valid_dates [to_datetime parse_date (VStr s)] = [].
Proof. intros H. simpl. by rewrite H. Qed.

(** A missing date is filled with 0 before it is parsed, and 0 is a date. *)
Lemma missing_date_is_kept (parse_date : string → option Z) :
  valid_dates [to_datetime parse_date (fill0 VNaN)] = [0].
Proof. done. Qed.

(** C3, on the code. For the sales file with the single row whose date is
    missing, the run reports the epoch as its first and its last date,
    whatever the date parser: the missing date contributes a date value. *)
Theorem missing_date_reaches_the_date_range
    (parse_date : string → option Z) :
  date_extremes
    (load_sales_chunked parse_date 1 (files_with sales_missing_date)) =
  Done (Some 0, Some 0).
Proof. by vm_compute. Qed.

(** ** The empty file *)

(** C8, on the code. For a sales file with a header and no data row the
    run does not stop: it returns totals of zero and a sample without
    rows. *)
Theorem header_only_file_returns_a_result (parse_date : string → option Z) :
  totals (load_sales_chunked parse_date 2 (files_with sales_header_only)) =
  Done (0, 0%nat) ∧
  rows (the_sample
          (load_sales_chunked parse_date 2 (files_with sales_header_only))) = [].
Proof. split; by vm_compute. Qed.

(** ** The average ticket *)

(** C9. The average ticket is the quotient of the two totals when there is
    a transaction and 0 when there is none; the division is never reached
    with a zero divisor, so the figure is always defined. *)
Theorem avg_ticket_guards_the_division (a : agg_data) :
  is_Some (avg_ticket a) ∧
  ((0 < total_transactions a)%nat →
     avg_ticket a =
       Some (inject_Z (total_revenue a) /
             inject_Z (Z.of_nat (total_transactions a)))%Q) ∧
  (total_transactions a = 0%nat → avg_ticket a = Some 0%Q).
Proof.
  unfold avg_ticket, truediv. repeat split.
  - case_decide; [| by eexists]. rewrite decide_False by lia. by eexists.
  - intros H. rewrite decide_True by lia. by rewrite decide_False by lia.
  - intros ->. by rewrite decide_False by (simpl; lia).
Qed.

(** ** The properties on small files *)



(** C6 on the file with the same row twice, read in one chunk: one
    transaction. *)
Lemma total_transactions_on_duplicates :
  total_transactions
    (the_agg (load_sales_chunked parse_two_days 2 (files_with sales_twice))) =
  sum_list_with (λ chunk, len (fillna (drop_duplicates chunk)))
    (the_value (read_csv_chunks 2 sales_twice) []).
Proof.
  apply (total_transactions_counts_cleaned_rows parse_two_days 2
           (files_with sales_twice) sales_twice
           (the_value (read_csv_chunks 2 sales_twice) [])
           (the_agg (load_sales_chunked parse_two_days 2
                       (files_with sales_twice)))
           (the_sample (load_sales_chunked parse_two_days 2
                          (files_with sales_twice))));
    by vm_compute.
Defined.

(** C4 on the four rows read one row at a time: the sample is the first
    three rows. *)
Lemma sample_of_four_rows :
  let kept := take sample_chunks stream_four in
  rows (the_sample run_four) =
    take sample_cap
      (concat (rows <$> (enriched parse_two_days pd_named cd_named <$> kept))) ∧
  length (rows (the_sample run_four)) =
    (sum_list_with (λ chunk, len (clean chunk)) kept `min` sample_cap)%nat ∧
  rows (the_sample run_four) `prefix_of`
    concat (rows <$> (enriched parse_two_days pd_named cd_named <$> stream_four)) ∧
  total_transactions (the_agg run_four) =
    sum_list_with (λ chunk, len (clean chunk)) stream_four.
Proof.
  apply (sample_is_capped_prefix parse_two_days 1 (files_with sales_four)
           products_named cities_named sales_four pd_named cd_named
           stream_four (the_agg run_four) (the_sample run_four));
    by vm_compute.
Defined.



(** C10 on the four rows: the second row of the sample has product 7 and
    store 99. *)
Lemma sample_names_of_four_rows :
  let r := [VTime 1704153600000000000; VNum 7; VNum 7; VNum 99; VNaN; VNaN] in
  row_get (the_sample run_four) "product_name" r = Some VNaN ∧
  row_get (the_sample run_four) "city" r = Some VNaN.
Proof.
  intros r.
  assert (rectangular sales_four) as Hrect by by repeat constructor.
  assert (r ∈ rows (the_sample run_four)) as Hr.
  { apply (list_elem_of_lookup_2 _ 1%nat). by vm_compute. }
  destruct (sample_name_of_unknown_id_is_NaN parse_two_days 1
              (files_with sales_four) products_named cities_named sales_four
              pd_named cd_named (the_agg run_four) (the_sample run_four) r
              eq_refl eq_refl eq_refl ltac:(by vm_compute)
              ltac:(by vm_compute) Hrect ltac:(by vm_compute) Hr) as [Hp Hc].
  split.
  - apply (Hp (VNum 7)); by vm_compute.
  - apply (Hc (VNum 99)); by vm_compute.
Defined.

(** C9 on the four rows, and on a result without transactions. *)
Lemma avg_ticket_of_four_rows :
  avg_ticket (the_agg run_four) = Some (inject_Z 17 / inject_Z 4)%Q ∧
  avg_ticket agg_init = Some 0%Q.
Proof.
  split.
  - apply (proj1 (proj2 (avg_ticket_guards_the_division (the_agg run_four)))).
    vm_compute. lia.
  - apply (proj2 (proj2 (avg_ticket_guards_the_division agg_init))).
    reflexivity.
Defined.

(** * More of the loader and of the script *)

Section MoreFacts.

Variable parse_date : string → option Z.

(** ** Rows and transactions *)

Lemma elem_of_dedup (l : list row) (r : row) : r ∈ dedup l ↔ r ∈ l.
Proof.
  induction l as [|x l IH]; simpl; [done |].
  rewrite !elem_of_cons, list_elem_of_filter, IH.
  destruct (decide (r = x)); tauto.
Qed.

Lemma elem_of_concat_2 {A} (x : A) (l : list A) (ls : list (list A)) :
  l ∈ ls → x ∈ l → x ∈ concat ls.
Proof.
  induction 1 as [l ls | l l' ls _ IH]; simpl; intros Hx;
    apply elem_of_app; [by left | right; by apply IH].
Qed.

Lemma length_dedup_concat (cs : list (list row)) :
  (length (dedup (concat cs)) ≤ sum_list_with (λ c, length (dedup c)) cs)%nat.
Proof.
  rewrite <- (length_concat_with dedup cs).
  apply submseteq_length, NoDup_submseteq; [apply dedup_is_NoDup |].
  intros r Hr. apply (proj1 (elem_of_dedup _ _)) in Hr.
  apply elem_of_concat in Hr as (c & Hc & Hr).
  apply (elem_of_concat_2 _ (dedup c)).
  - by apply list_elem_of_fmap_2.
  - by apply elem_of_dedup.
Qed.

Lemma sum_list_with_le {A} (f g : A → nat) (l : list A) :
  (∀ x, f x ≤ g x)%nat → (sum_list_with f l ≤ sum_list_with g l)%nat.
Proof.
  intros Hle. induction l as [|x l IH]; simpl; [done |].
  specialize (Hle x). lia.
Qed.

Lemma sum_list_with_fmap {A B} (f : B → nat) (g : A → B) (l : list A) :
  sum_list_with f (g <$> l) = sum_list_with (f ∘ g) l.
Proof. induction l as [|x l IH]; csimpl; [done | by rewrite IH]. Qed.

Lemma transactions_bounds_aux (chunksize : nat)
    (fs : files) (sales : DataFrame) (a : agg_data) (s : DataFrame) :
  sales_csv fs = Some sales →
  load_sales_chunked parse_date chunksize fs = Done (a, s) →
  (length (dedup (rows sales)) ≤ total_transactions a)%nat ∧
  (total_transactions a ≤ length (rows sales))%nat.
Proof.
  intros Hs H. apply load_sales_chunked_Done in H.
  destruct H as (? & ? & sales' & pd & cd & stream & st & _ & _ & Hs' & _ & _
                 & Hread & Hl & _ & -> & _).
  assert (sales' = sales) as -> by congruence.
  apply read_csv_chunks_Done in Hread as (_ & _ & Hcat & _).
  destruct (date_range_totals (agg st)) as (_ & -> & _).
  rewrite (process_chunks_transactions _ _ _ _ _ _ Hl). simpl.
  rewrite <- Hcat.
  rewrite (sum_list_with_eq _ (λ ch, length (dedup (rows ch))))
    by apply len_clean.
  split.
  - etrans; [apply length_dedup_concat |]. by rewrite sum_list_with_fmap.
  - rewrite length_concat_with.
    apply sum_list_with_le. intros ch. apply sublist_length, dedup_sublist.
Qed.

(** X1. Duplicates are dropped within a chunk only, so the transaction
    count of a run lies between the number of distinct rows of the file and
    the number of its rows. *)
Theorem transactions_between_distinct_and_all_rows (chunksize : nat)
    (fs : files) (sales : DataFrame) (a : agg_data) (s : DataFrame) :
  sales_csv fs = Some sales →
  load_sales_chunked parse_date chunksize fs = Done (a, s) →
  (length (dedup (rows sales)) ≤ total_transactions a)%nat ∧
  (total_transactions a ≤ length (rows sales))%nat.
Proof. apply transactions_bounds_aux. Qed.

(** X2. A run on a file with at least one row counts at least one
    transaction, and its average ticket is the quotient of the two totals;
    a run on a file without rows counts none and its average ticket is 0. *)
Theorem avg_ticket_of_a_run (chunksize : nat) (fs : files)
    (sales : DataFrame) (a : agg_data) (s : DataFrame) :
  sales_csv fs = Some sales →
  load_sales_chunked parse_date chunksize fs = Done (a, s) →
  (rows sales = [] → total_transactions a = 0%nat ∧ avg_ticket a = Some 0%Q) ∧
  (rows sales ≠ [] →
     (0 < total_transactions a)%nat ∧
     avg_ticket a =
       Some (inject_Z (total_revenue a) /
             inject_Z (Z.of_nat (total_transactions a)))%Q).
Proof.
  intros Hs H.
  destruct (transactions_bounds_aux chunksize fs sales a s Hs H) as [Hlo Hhi].
  unfold avg_ticket, truediv. split.
  - intros E. rewrite E in Hhi. simpl in Hhi.
    assert (total_transactions a = 0%nat) as -> by lia.
    split; [done |]. by rewrite decide_False by (simpl; lia).
  - intros Hne. destruct (rows sales) as [|r rs]; [done |]. simpl in Hlo.
    split; [lia |].
    rewrite decide_True by lia. by rewrite decide_False by lia.
Qed.

(** ** More on the sample *)

Lemma read_csv_chunks_lengths (chunksize : nat) (sales : DataFrame)
    (stream : list DataFrame) :
  read_csv_chunks chunksize sales = Done stream →
  Forall (λ ch, len ch ≤ chunksize)%nat stream.
Proof.
  unfold read_csv_chunks. case_decide; [done |].
  destruct (rows sales) as [|r rs].
  - intros [= <-]. repeat constructor. unfold len. simpl. lia.
  - intros Hst.
    assert (stream = mkFrame (columns sales) <$> chunks chunksize (r :: rs))
      as -> by congruence.
    rewrite Forall_fmap. apply chunks_go_length.
Qed.

Lemma sum_list_with_bound {A} (f : A → nat) (n : nat) (l : list A) :
  Forall (λ x, f x ≤ n)%nat l → (sum_list_with f l ≤ length l * n)%nat.
Proof. induction 1 as [|x l Hx _ IH]; simpl; lia. Qed.

(** X3. The sample never has more than 50000 rows, more than three chunks
    of rows, or more rows than the run counted as transactions. *)
Theorem sample_size_is_bounded (chunksize : nat) (fs : files)
    (a : agg_data) (s : DataFrame) :
  load_sales_chunked parse_date chunksize fs = Done (a, s) →
  (length (rows s) ≤ sample_cap)%nat ∧
  (length (rows s) ≤ sample_chunks * chunksize)%nat ∧
  (length (rows s) ≤ total_transactions a)%nat.
Proof.
  intros H. apply load_sales_chunked_Done in H.
  destruct H as (? & ? & sales & pd & cd & stream & st & _ & _ & _ & _ & _
                 & Hread & Hl & _ & -> & ->).
  pose proof (process_chunks_transactions _ _ _ _ _ _ Hl) as Hcount.
  apply process_chunks_sample in Hl; [| simpl; lia]. simpl in Hl, Hcount.
  apply read_csv_chunks_lengths in Hread.
  destruct (date_range_totals (agg st)) as (_ & -> & _).
  simpl. rewrite Hl, length_take, <- fmap_take, <- list_fmap_compose.
  rewrite length_concat_with.
  rewrite (sum_list_with_eq _ (λ ch, len (clean ch)))
    by (intros ch; apply len_enriched).
  assert (sum_list_with (λ ch, len (clean ch)) (take sample_chunks stream) ≤
          sum_list_with (λ ch, len (clean ch)) stream)%nat as Hall.
  { rewrite <- (take_drop sample_chunks stream) at 2.
    rewrite sum_list_with_app. lia. }
  assert (sum_list_with (λ ch, len (clean ch)) (take sample_chunks stream) ≤
          sample_chunks * chunksize)%nat as Hthree.
  { etrans; [apply (sum_list_with_bound _ chunksize) |].
    - apply Forall_take. eapply Forall_impl; [done |]. intros ch Hch. simpl.
      rewrite len_clean. etrans; [| exact Hch].
      apply sublist_length, dedup_sublist.
    - rewrite length_take. apply Nat.mul_le_mono_r. lia. }
  unfold sample_chunks in *. generalize dependent sample_cap. intros cap.
  lia.
Qed.

Lemma columns_enriched_eq (pd cd : gmap value value) (chunk : DataFrame) :
  columns (enriched parse_date pd cd chunk) = sample_columns (columns chunk).
Proof.
  unfold enriched, chunk_merge, sample_columns.
  by rewrite !columns_add_names, columns_prepared.
Qed.

Lemma rectangular_enriched (pd cd : gmap value value) (chunk : DataFrame) :
  rectangular chunk → rectangular (enriched parse_date pd cd chunk).
Proof.
  intros H. unfold enriched, chunk_merge.
  by do 2 apply rectangular_add_names; apply rectangular_prepared.
Qed.

Lemma chunk_of_rectangular (sales chunk : DataFrame) :
  rectangular sales → columns chunk = columns sales →
  rows chunk `sublist_of` rows sales → rectangular chunk.
Proof.
  intros Hrect Hcols Hsub. destruct chunk as [cols rs]. simpl in *. subst cols.
  apply (rectangular_sublist _ (rows sales)); [done |]. by destruct sales.
Qed.

(** Every row of the sample of a run is a row of an enriched chunk of the
    stream. *)
Lemma sample_row_origin (chunksize : nat) (fs : files)
    (a : agg_data) (s : DataFrame) :
  load_sales_chunked parse_date chunksize fs = Done (a, s) →
  ∃ products cities sales pd cd stream,
    product_hierarchy_csv fs = Some products ∧
    store_cities_csv fs = Some cities ∧
    sales_csv fs = Some sales ∧
    products_dict products = Done pd ∧
    cities_dict cities = Done cd ∧
    read_csv_chunks chunksize sales = Done stream ∧
    columns s = sample_columns (columns sales) ∧
    ∀ r, r ∈ rows s →
      ∃ chunk, chunk ∈ stream ∧ columns chunk = columns sales ∧
               rows chunk `sublist_of` rows sales ∧
               r ∈ rows (enriched parse_date pd cd chunk).
Proof.
  intros H. apply load_sales_chunked_Done in H.
  destruct H as (products & cities & sales & pd & cd & stream & st
                 & Hp & Hc & Hs & Hpd & Hcd & Hread & Hl & Hne & _ & ->).
  exists products, cities, sales, pd, cd, stream.
  repeat (split; [done |]).
  apply read_csv_chunks_Done in Hread as (_ & Hstream & _ & Hall).
  rewrite Forall_forall in Hall.
  apply process_chunks_sample in Hl; [| simpl; lia]. simpl in Hl.
  split.
  - simpl. rewrite Hl. destruct stream as [|c0 stream]; [done |]. simpl.
    rewrite columns_enriched_eq. by destruct (Hall c0 ltac:(left)) as [-> _].
  - intros r Hr. simpl in Hr. apply subseteq_take in Hr.
    apply elem_of_concat in Hr as (l & Hl' & Hr).
    apply list_elem_of_fmap in Hl' as (fr & -> & Hfr).
    rewrite Hl in Hfr.
    apply subseteq_take, list_elem_of_fmap in Hfr as (chunk & -> & Hch).
    destruct (Hall _ Hch) as [Hcols Hsub]. by exists chunk.
Qed.

(** X4. The sample of a run on a rectangular file is rectangular; its
    columns are those of the file, followed by [product_name] when the
    file has product ids and no such column yet, and by [city] when it has
    store ids and no such column yet. *)
Theorem sample_is_a_well_formed_frame (chunksize : nat) (fs : files)
    (sales : DataFrame) (a : agg_data) (s : DataFrame) :
  sales_csv fs = Some sales →
  rectangular sales →
  load_sales_chunked parse_date chunksize fs = Done (a, s) →
  columns s = sample_columns (columns sales) ∧ rectangular s.
Proof.
  intros Hs Hrect H.
  destruct (sample_row_origin _ _ _ _ H)
    as (? & ? & sales' & pd & cd & stream & _ & _ & Hs' & _ & _ & _
        & Hcols & Hrows).
  assert (sales' = sales) as -> by congruence.
  split; [done |].
  unfold rectangular. rewrite Forall_forall. intros r Hr.
  destruct (Hrows r Hr) as (chunk & _ & Hc & Hsub & Hin).
  pose proof (rectangular_enriched pd cd chunk
                (chunk_of_rectangular _ _ Hrect Hc Hsub)) as Hre.
  unfold rectangular in Hre. rewrite Forall_forall in Hre.
  rewrite (Hre r Hin), columns_enriched_eq, Hcols. by rewrite Hc.
Qed.

(** X5. In the sample, a row whose product id (store id) is in the lookup
    table holds the name of that table in the [product_name] ([city])
    column. *)
Theorem sample_name_of_known_id (chunksize : nat) (fs : files)
    (products cities sales : DataFrame) (pd cd : gmap value value)
    (a : agg_data) (s : DataFrame) (r : row) :
  product_hierarchy_csv fs = Some products →
  store_cities_csv fs = Some cities →
  sales_csv fs = Some sales →
  products_dict products = Done pd →
  cities_dict cities = Done cd →
  rectangular sales →
  load_sales_chunked parse_date chunksize fs = Done (a, s) →
  r ∈ rows s →
  (∀ pid name, row_get s "product_id" r = Some pid → pd !! pid = Some name →
               row_get s "product_name" r = Some name) ∧
  (∀ sid name, row_get s "store_id" r = Some sid → cd !! sid = Some name →
               row_get s "city" r = Some name).
Proof.
  intros Hp Hc Hs Hpd Hcd Hrect H Hr.
  destruct (sample_row_origin _ _ _ _ H)
    as (products' & cities' & sales' & pd' & cd' & stream & Hp' & Hc' & Hs'
        & Hpd' & Hcd' & _ & Hcols & Hrows).
  assert (products' = products) as -> by congruence.
  assert (cities' = cities) as -> by congruence.
  assert (sales' = sales) as -> by congruence.
  assert (pd' = pd) as -> by congruence.
  assert (cd' = cd) as -> by congruence.
  destruct (Hrows r Hr) as (chunk & _ & Hcc & Hsub & Hin).
  assert (columns s = columns (enriched parse_date pd cd chunk)) as Hsc
    by by rewrite columns_enriched_eq, Hcc.
  pose proof (rectangular_prepared parse_date chunk
                (chunk_of_rectangular _ _ Hrect Hcc Hsub)) as Hrc.
  destruct (chunk_merge_rows pd cd _ r Hrc Hin) as [Hprod Hcity].
  fold (enriched parse_date pd cd chunk) in Hprod, Hcity.
  split.
  - intros pid name Hid Hname.
    rewrite !(row_get_columns s _ _ _ Hsc) in *.
    by rewrite (Hprod _ Hid), Hname.
  - intros sid name Hid Hname.
    rewrite !(row_get_columns s _ _ _ Hsc) in *.
    by rewrite (Hcity _ Hid), Hname.
Qed.

(** ** More on the revenue *)



Lemma stream_columns (chunksize : nat) (sales : DataFrame)
    (stream : list DataFrame) :
  read_csv_chunks chunksize sales = Done stream →
  Forall (λ ch, columns ch = columns sales) stream.
Proof.
  intros (_ & _ & _ & Hall)%read_csv_chunks_Done.
  eapply Forall_impl; [done |]. by intros ch [? _].
Qed.


Lemma process_chunks_no_revenue (pd cd : gmap value value)
    (cols : list string) (stream : list DataFrame) (st st' : loop_state) :
  Forall (λ ch, columns ch = cols) stream →
  col_index "revenue" cols = None →
  process_chunks parse_date pd cd st stream = Done st' →
  total_revenue (agg st') = total_revenue (agg st) ∧
  product_revenue (agg st') = product_revenue (agg st) ∧
  city_revenue (agg st') = city_revenue (agg st).
Proof.
  intros Hall Hj. revert st.
  induction Hall as [|ch stream Hcols _ IH]; intros st; simpl.
  - by intros [= <-].
  - intros H. inv_outcome.
    match goal with
    | H1 : process_chunk _ _ _ _ _ = Done _ |- _ =>
        apply process_chunk_Done in H1;
        destruct H1 as (Hrev & _ & Hprod & Hcity & _)
    end.
    unfold add_revenue, add_by_name in *.
    rewrite columns_prepared, Hcols, Hj in *.
    destruct (col_index "product_id" cols), (col_index "store_id" cols);
      destruct (IH _ H) as (-> & -> & ->); by simplify_eq.
Qed.

(** X7. Without a revenue column the run still returns: the total revenue
    is 0 and both revenue maps are empty. *)
Theorem no_revenue_column_gives_zero_revenue (chunksize : nat) (fs : files)
    (sales : DataFrame) (a : agg_data) (s : DataFrame) :
  sales_csv fs = Some sales →
  has_col "revenue" sales = false →
  load_sales_chunked parse_date chunksize fs = Done (a, s) →
  total_revenue a = 0 ∧ product_revenue a = ∅ ∧ city_revenue a = ∅.
Proof.
  intros Hs Hcol H. apply load_sales_chunked_Done in H.
  destruct H as (? & ? & sales' & pd & cd & stream & st & _ & _ & Hs' & _ & _
                 & Hread & Hl & _ & -> & _).
  assert (sales' = sales) as -> by congruence.
  apply bool_decide_eq_false in Hcol.
  assert (col_index "revenue" (columns sales) = None) as Hj.
  { destruct (col_index "revenue" (columns sales)) eqn:E; [| done].
    destruct Hcol. by eexists. }
  destruct (date_range_totals (agg st)) as (-> & _ & -> & ->).
  by apply (process_chunks_no_revenue pd cd (columns sales) stream state_init st);
    [eapply stream_columns | |].
Qed.





Lemma sum_Z_permutation (xs ys : list Z) : xs ≡ₚ ys → sum_Z xs = sum_Z ys.
Proof.
  unfold sum_Z. induction 1; simpl; lia.
Qed.

(** ** The date range *)

Lemma parse_dates_dates_of (chunk : DataFrame) :
  (parse_dates parse_date (clean chunk) []).2 = dates_of parse_date chunk.
Proof.
  unfold dates_of, prepared, parse_dates.
  change (columns (clean chunk)) with (columns chunk).
  by destruct (col_index "date" (columns chunk)).
Qed.

Lemma foldl_min_spec (l : list Z) (x : Z) :
  foldl Z.min x l ∈ x :: l ∧ ∀ d, d ∈ x :: l → foldl Z.min x l ≤ d.
Proof.
  revert x. induction l as [|y l IH]; intros x; simpl.
  - split; [left |]. intros d ->%list_elem_of_singleton. lia.
  - destruct (IH (x `min` y)) as [Hin Hle]. split.
    + apply elem_of_cons in Hin as [-> | Hin].
      * destruct (Z.min_spec x y) as [[_ ->] | [_ ->]];
          [left | right; left].
      * by do 2 right.
    + intros d Hd. pose proof (Hle (x `min` y) ltac:(left)).
      apply elem_of_cons in Hd as [-> | Hd]; [lia |].
      apply elem_of_cons in Hd as [-> | Hd]; [lia |].
      apply Hle. by right.
Qed.

Lemma foldl_max_spec (l : list Z) (x : Z) :
  foldl Z.max x l ∈ x :: l ∧ ∀ d, d ∈ x :: l → d ≤ foldl Z.max x l.
Proof.
  revert x. induction l as [|y l IH]; intros x; simpl.
  - split; [left |]. intros d ->%list_elem_of_singleton. lia.
  - destruct (IH (x `max` y)) as [Hin Hle]. split.
    + apply elem_of_cons in Hin as [-> | Hin].
      * destruct (Z.max_spec x y) as [[_ ->] | [_ ->]];
          [right; left | left].
      * by do 2 right.
    + intros d Hd. pose proof (Hle (x `max` y) ltac:(left)).
      apply elem_of_cons in Hd as [-> | Hd]; [lia |].
      apply elem_of_cons in Hd as [-> | Hd]; [lia |].
      apply Hle. by right.
Qed.

(** The date range of a run, from the valid dates of its chunks. *)
Lemma run_date_range (chunksize : nat) (fs : files) (sales : DataFrame)
    (stream : list DataFrame) (a : agg_data) (s : DataFrame) :
  sales_csv fs = Some sales →
  read_csv_chunks chunksize sales = Done stream →
  load_sales_chunked parse_date chunksize fs = Done (a, s) →
  let ds := concat (dates_of parse_date <$> stream) in
  dates a = [] ∧ min_date a = list_min ds ∧ max_date a = list_max ds.
Proof.
  intros Hs Hread H ds. apply load_sales_chunked_Done in H.
  destruct H as (? & ? & sales' & pd & cd & stream' & st & _ & _ & Hs' & _ & _
                 & Hread' & Hl & _ & -> & _).
  assert (sales' = sales) as -> by congruence.
  assert (stream' = stream) as -> by congruence.
  apply process_chunks_dates in Hl as (Hd & Hmin & Hmax). simpl in *.
  assert (dates (agg st) = ds) as Hds.
  { rewrite Hd. unfold ds. f_equal. apply list_fmap_ext.
    intros _ ch _. apply parse_dates_dates_of. }
  unfold date_range. rewrite Hds.
  destruct ds as [|d ds']; simpl; [by rewrite Hds, Hmin, Hmax | done].
Qed.


Lemma dates_of_no_column (chunk : DataFrame) :
  col_index "date" (columns chunk) = None → dates_of parse_date chunk = [].
Proof. unfold dates_of. by intros ->. Qed.

Lemma dates_of_stream_no_column (cols : list string)
    (stream : list DataFrame) :
  Forall (λ ch, columns ch = cols) stream →
  col_index "date" cols = None →
  concat (dates_of parse_date <$> stream) = [].
Proof.
  intros Hall Hj. induction Hall as [|ch stream Hc _ IH]; [done |]. csimpl.
  rewrite dates_of_no_column by by rewrite Hc. done.
Qed.

(** X12. For a sales file without a date column the run has no first and
    no last date, and the whole sample is shown whatever range is asked
    for. *)
Theorem no_date_column_gives_no_date_range (chunksize : nat) (fs : files)
    (sales : DataFrame) (a : agg_data) (s : DataFrame) (start stop : Z) :
  sales_csv fs = Some sales →
  has_col "date" sales = false →
  load_sales_chunked parse_date chunksize fs = Done (a, s) →
  min_date a = None ∧ max_date a = None ∧
  filtered_data parse_date a s start stop = s.
Proof.
  intros Hs Hcol H.
  assert (∃ stream, read_csv_chunks chunksize sales = Done stream)
    as [stream Hread].
  { pose proof H as H'. apply load_sales_chunked_Done in H'.
    destruct H' as (? & ? & sales' & ? & ? & stream & ? & _ & _ & Hs' & _ & _
                    & Hread & _).
    assert (sales' = sales) as -> by congruence. by exists stream. }
  destruct (run_date_range _ _ _ _ _ _ Hs Hread H) as (_ & Hmin & Hmax).
  apply bool_decide_eq_false in Hcol.
  assert (col_index "date" (columns sales) = None) as Hj.
  { destruct (col_index "date" (columns sales)) eqn:E; [| done].
    destruct Hcol. by eexists. }
  assert (concat (dates_of parse_date <$> stream) = []) as E.
  { apply (dates_of_stream_no_column (columns sales)); [| done].
    by eapply stream_columns. }
  rewrite E in Hmin, Hmax. simpl in *.
  repeat split; try done.
  unfold filtered_data. by rewrite Hmin.
Qed.

(** ** The date filter *)

Lemma to_datetime_parsed (x : value) :
  to_datetime parse_date x = VNaT ∨ ∃ t, to_datetime parse_date x = VTime t.
Proof.
  destruct x; simpl; eauto.
  destruct (parse_date s); simpl; eauto.
Qed.

Lemma to_datetime_idemp (x : value) :
  to_datetime parse_date (to_datetime parse_date x) = to_datetime parse_date x.
Proof. by destruct (to_datetime_parsed x) as [-> | [t ->]]. Qed.

Lemma chunk_merge_keeps (pd cd : gmap value value) (df : DataFrame) (r : row) :
  rectangular df →
  r ∈ rows (chunk_merge pd cd df) →
  ∃ r0, r0 ∈ rows df ∧
        ∀ other, other ≠ "product_name" → other ≠ "city" →
                 row_get (chunk_merge pd cd df) other r = row_get df other r0.
Proof.
  intros Hrect Hin. unfold chunk_merge in *.
  set (df1 := add_names "product_id" "product_name" pd df) in *.
  assert (rectangular df1) as Hrect1 by by apply rectangular_add_names.
  destruct (add_names_rows "store_id" "city" cd df1 r Hrect1 ltac:(done) Hin)
    as (_ & r1 & Hr1 & Hkeep1).
  destruct (add_names_rows "product_id" "product_name" pd df r1 Hrect
              ltac:(done) Hr1) as (_ & r0 & Hr0 & Hkeep0).
  exists r0. split; [done |]. intros other H1 H2.
  by rewrite Hkeep1, Hkeep0.
Qed.

Lemma prepared_date_cell (chunk : DataFrame) (i : nat) (r : row) :
  rectangular chunk →
  col_index "date" (columns chunk) = Some i →
  r ∈ rows (prepared parse_date chunk) →
  ∃ x, r !! i = Some (to_datetime parse_date x).
Proof.
  intros Hrect Hi. rewrite prepared_frame. simpl.
  intros (r' & -> & Hr')%list_elem_of_fmap.
  apply list_elem_of_fmap in Hr' as (r0 & -> & Hr0).
  apply (proj1 (elem_of_dedup _ _)) in Hr0.
  unfold rectangular in Hrect. rewrite Forall_forall in Hrect.
  specialize (Hrect _ Hr0). simpl in Hrect.
  unfold date_row. rewrite Hi. eexists.
  apply list_lookup_insert_eq. unfold fill_row. rewrite length_fmap, Hrect.
  by eapply col_index_lt.
Qed.

Lemma col_index_sample_columns (name : string) (cols : list string) :
  name ≠ "product_name" → name ≠ "city" →
  col_index name (sample_columns cols) = col_index name cols.
Proof.
  intros H1 H2. unfold sample_columns.
  destruct (col_index "product_id" cols);
    destruct (col_index "store_id" _);
    by rewrite ?col_index_cols_with_other.
Qed.

(** The date cells of the sample: each is a parsed cell, and each valid
    one is among the valid dates of the stream. *)
Lemma sample_date_cells (chunksize : nat) (fs : files) (sales : DataFrame)
    (stream : list DataFrame) (i : nat) (a : agg_data) (s : DataFrame) :
  sales_csv fs = Some sales →
  rectangular sales →
  read_csv_chunks chunksize sales = Done stream →
  col_index "date" (columns sales) = Some i →
  load_sales_chunked parse_date chunksize fs = Done (a, s) →
  col_index "date" (columns s) = Some i ∧
  ∀ r, r ∈ rows s →
    ∃ x, r !! i = Some (to_datetime parse_date x) ∧
         ∀ t, to_datetime parse_date x = VTime t →
              t ∈ concat (dates_of parse_date <$> stream).
Proof.
  intros Hs Hrect Hread Hi H.
  destruct (sample_row_origin _ _ _ _ H)
    as (products & cities & sales' & pd & cd & stream' & _ & _ & Hs' & _ & _
        & Hread' & Hcols & Hrows).
  assert (sales' = sales) as -> by congruence.
  assert (stream' = stream) as -> by congruence.
  split; [by rewrite Hcols, col_index_sample_columns |].
  intros r Hr. destruct (Hrows r Hr) as (chunk & Hch & Hc & Hsub & Hin).
  pose proof (rectangular_prepared parse_date chunk
                (chunk_of_rectangular _ _ Hrect Hc Hsub)) as Hrc.
  destruct (chunk_merge_keeps pd cd _ r Hrc Hin) as (r0 & Hr0 & Hkeep).
  specialize (Hkeep "date" ltac:(done) ltac:(done)).
  fold (enriched parse_date pd cd chunk) in Hkeep.
  unfold row_get in Hkeep.
  rewrite columns_enriched_eq, col_index_sample_columns in Hkeep by done.
  rewrite columns_prepared, Hc, Hi in Hkeep. simpl in Hkeep.
  destruct (prepared_date_cell chunk i r0
              (chunk_of_rectangular _ _ Hrect Hc Hsub)
              ltac:(by rewrite Hc) Hr0) as [x Hx].
  exists x. split; [by rewrite Hkeep |].
  intros t Ht. apply (elem_of_concat_2 _ (dates_of parse_date chunk)).
  - by apply list_elem_of_fmap_2.
  - unfold dates_of. rewrite Hc, Hi. unfold valid_dates, column_at.
    apply list_elem_of_omap. exists (cell i r0). split.
    + by apply list_elem_of_fmap_2.
    + unfold cell. by rewrite (list_lookup_total_correct _ _ _ Hx), Ht.
Qed.

Lemma reparse_dates_id (df : DataFrame) (i : nat) :
  col_index "date" (columns df) = Some i →
  (∀ r, r ∈ rows df → ∃ x, r !! i = Some (to_datetime parse_date x)) →
  reparse_dates parse_date df = df.
Proof.
  intros Hi Hcells. unfold reparse_dates. rewrite Hi.
  unfold column_at. rewrite <- list_fmap_compose.
  rewrite (set_col_fmap "date" (to_datetime parse_date ∘ cell i) df).
  unfold cols_with, put. rewrite Hi. destruct df as [cols rs]. simpl in *.
  f_equal. rewrite <- (list_fmap_id rs) at 2.
  apply list_fmap_ext. intros n r Hn. simpl.
  destruct (Hcells r (list_elem_of_lookup_2 _ _ _ Hn)) as [x Hx].
  apply list_insert_id. unfold cell.
  by rewrite (list_lookup_total_correct _ _ _ Hx), to_datetime_idemp.
Qed.

(** The rows shown for a range, when the run has a date range. *)
Lemma filtered_data_rows (chunksize : nat) (fs : files) (sales : DataFrame)
    (i : nat) (a : agg_data) (s : DataFrame) (lo hi start stop : Z) :
  sales_csv fs = Some sales →
  rectangular sales →
  col_index "date" (columns sales) = Some i →
  load_sales_chunked parse_date chunksize fs = Done (a, s) →
  min_date a = Some lo → max_date a = Some hi →
  filtered_data parse_date a s start stop =
  mkFrame (columns s) (filter (λ r, within start stop (cell i r)) (rows s)).
Proof.
  intros Hs Hrect Hi H Hlo Hhi.
  assert (∃ stream, read_csv_chunks chunksize sales = Done stream)
    as [stream Hread].
  { pose proof H as H'. apply load_sales_chunked_Done in H'.
    destruct H' as (? & ? & sales' & ? & ? & stream & ? & _ & _ & Hs' & _ & _
                    & Hread & _).
    assert (sales' = sales) as -> by congruence. by exists stream. }
  destruct (sample_date_cells _ _ _ _ _ _ _ Hs Hrect Hread Hi H)
    as [Hsi Hcells].
  unfold filtered_data. rewrite Hlo, Hhi, Hsi.
  rewrite (reparse_dates_id s i Hsi); [done |].
  intros r Hr. destruct (Hcells r Hr) as (x & Hx & _). by exists x.
Qed.

(** X13. When the run has a date range, the rows shown for the range
    picked in the sidebar are, in the order of the sample, exactly the
    sample rows whose date is valid and falls on a day of the range;
    parsing the dates of the sample once more changes nothing. *)
Theorem date_filter_keeps_the_rows_of_the_range (chunksize : nat)
    (fs : files) (sales : DataFrame) (i : nat) (a : agg_data)
    (s : DataFrame) (lo hi start stop : Z) :
  sales_csv fs = Some sales →
  rectangular sales →
  col_index "date" (columns sales) = Some i →
  load_sales_chunked parse_date chunksize fs = Done (a, s) →
  min_date a = Some lo → max_date a = Some hi →
  let shown := filtered_data parse_date a s start stop in
  columns shown = columns s ∧
  rows shown `sublist_of` rows s ∧
  ∀ r, r ∈ rows shown ↔
       r ∈ rows s ∧ ∃ t, cell i r = VTime t ∧ start ≤ day t ≤ stop.
Proof.
  intros Hs Hrect Hi H Hlo Hhi shown. subst shown.
  rewrite (filtered_data_rows _ _ _ _ _ _ _ _ _ _ Hs Hrect Hi H Hlo Hhi).
  simpl. split; [done |]. split; [apply sublist_filter |].
  intros r. rewrite list_elem_of_filter. unfold within.
  split.
  - intros [Hw Hr]. split; [done |].
    destruct (cell i r); try done. exists t.
    apply andb_prop_elim in Hw as [H1 H2].
    apply bool_decide_unpack in H1, H2. done.
  - intros (Hr & t & -> & H1 & H2). split; [| done].
    apply andb_prop_intro. split; by apply bool_decide_pack.
Qed.

Lemma filter_ext_in {A} (P Q : A → Prop) `{∀ x, Decision (P x)}
    `{∀ x, Decision (Q x)} (l : list A) :
  (∀ x, x ∈ l → P x ↔ Q x) → filter P l = filter Q l.
Proof.
  induction l as [|x l IH]; intros Hext; [done |].
  rewrite !filter_cons.
  rewrite IH by (intros y Hy; apply Hext; by right).
  destruct (decide (P x)) as [HP | HP], (decide (Q x)) as [HQ | HQ];
    try done; exfalso; apply (Hext x ltac:(left)) in HP || apply HP;
    by (done || apply (Hext x ltac:(left))).
Qed.

Lemma day_mono (t1 t2 : Z) : t1 ≤ t2 → day t1 ≤ day t2.
Proof. intros. unfold day, ns_per_day. by apply Z.div_le_mono. Qed.

(** X14. With the range the sidebar starts with, from the day of the first
    date of the run to the day of its last date, the rows shown are exactly
    the sample rows that have a valid date. *)
Theorem default_range_shows_every_dated_row (chunksize : nat) (fs : files)
    (sales : DataFrame) (i : nat) (a : agg_data) (s : DataFrame)
    (start stop : Z) :
  sales_csv fs = Some sales →
  rectangular sales →
  col_index "date" (columns sales) = Some i →
  load_sales_chunked parse_date chunksize fs = Done (a, s) →
  default_range a = Some (start, stop) →
  rows (filtered_data parse_date a s start stop) =
  filter (λ r, is_time (cell i r)) (rows s).
Proof.
  intros Hs Hrect Hi H Hrange. unfold default_range in Hrange.
  destruct (min_date a) as [lo|] eqn:Hlo; [| done].
  destruct (max_date a) as [hi|] eqn:Hhi; [| done].
  injection Hrange as <- <-.
  rewrite (filtered_data_rows _ _ _ _ _ _ _ _ _ _ Hs Hrect Hi H Hlo Hhi).
  simpl.
  assert (∃ stream, read_csv_chunks chunksize sales = Done stream)
    as [stream Hread].
  { pose proof H as H'. apply load_sales_chunked_Done in H'.
    destruct H' as (? & ? & sales' & ? & ? & stream & ? & _ & _ & Hs' & _ & _
                    & Hread & _).
    assert (sales' = sales) as -> by congruence. by exists stream. }
  destruct (sample_date_cells _ _ _ _ _ _ _ Hs Hrect Hread Hi H)
    as [_ Hcells].
  destruct (run_date_range _ _ _ _ _ _ Hs Hread H) as (_ & Hmin & Hmax).
  apply filter_ext_in. intros r Hr.
  destruct (Hcells r Hr) as (x & Hx & Hin).
  unfold within, is_time, cell. rewrite (list_lookup_total_correct _ _ _ Hx).
  destruct (to_datetime_parsed x) as [-> | [t Ht]]; [done |].
  rewrite Ht in *. specialize (Hin t eq_refl).
  rewrite Hlo in Hmin. rewrite Hhi in Hmax.
  destruct (concat (dates_of parse_date <$> stream)) as [|d ds];
    [by apply elem_of_nil in Hin |].
  simpl in Hmin, Hmax. injection Hmin as ->. injection Hmax as ->.
  destruct (foldl_min_spec ds d) as [_ Hle].
  destruct (foldl_max_spec ds d) as [_ Hge].
  split; [done |]. intros _.
  apply andb_prop_intro.
  split; apply bool_decide_pack, day_mono; auto.
Qed.

(** ** The lookup dictionaries, with a name column *)





(** ** When the loader returns *)









(** ** The top product *)

(** The best item of a list: where it is, that no item is larger and that
    every earlier item is smaller. *)
Lemma py_max_by_value_spec (x : value * Z) (l : list (value * Z)) :
  ∃ i, (x :: l) !! i = Some (py_max_by_value x l) ∧
       (∀ kx, kx ∈ x :: l → kx.2 ≤ (py_max_by_value x l).2) ∧
       (∀ j kx, (j < i)%nat → (x :: l) !! j = Some kx →
                kx.2 < (py_max_by_value x l).2).
Proof.
  unfold py_max_by_value. induction l as [|y l IH] using rev_ind.
  - exists 0%nat. simpl. split; [done |]. split.
    + intros kx ->%list_elem_of_singleton. lia.
    + intros j kx Hj. lia.
  - rewrite foldl_app. simpl.
    set (best := foldl (λ best kx, if decide (best.2 < kx.2) then kx else best)
                       x l) in *.
    destruct IH as (i & Hi & Hmax & Hfirst).
    case_decide as Hlt.
    + exists (length (x :: l)). split; [| split].
      * by rewrite (lookup_app_r (x :: l) [y]), Nat.sub_diag by done.
      * intros kx Hin. change (x :: l ++ [y]) with ((x :: l) ++ [y]) in Hin.
        apply elem_of_app in Hin as [Hin | ->%list_elem_of_singleton];
          [| lia]. specialize (Hmax kx Hin). lia.
      * intros j kx Hj Hlook.
        change (x :: l ++ [y]) with ((x :: l) ++ [y]) in Hlook.
        rewrite lookup_app_l in Hlook by done.
        pose proof (Hmax kx (list_elem_of_lookup_2 _ _ _ Hlook)). lia.
    + exists i. split; [| split].
      * change (x :: l ++ [y]) with ((x :: l) ++ [y]).
        rewrite lookup_app_l; [done |]. by eapply lookup_lt_Some.
      * intros kx Hin. change (x :: l ++ [y]) with ((x :: l) ++ [y]) in Hin.
        apply elem_of_app in Hin as [Hin | ->%list_elem_of_singleton];
          [by apply Hmax | lia].
      * intros j kx Hj Hlook.
        change (x :: l ++ [y]) with ((x :: l) ++ [y]) in Hlook.
        rewrite lookup_app_l in Hlook
          by (apply lookup_lt_Some in Hi; lia).
        by eapply Hfirst.
Qed.

(** X18. The top product of a list of entries that is not empty is the key
    of one of them; no entry has a larger revenue, and every entry before
    it has a smaller one, so among equal revenues the first entry wins. *)
Theorem top_product_is_the_first_best_entry (items : list (value * Z)) :
  items ≠ [] →
  ∃ i v, items !! i = Some (top_product items, v) ∧
         (∀ kx, kx ∈ items → kx.2 ≤ v) ∧
         (∀ j kx, (j < i)%nat → items !! j = Some kx → kx.2 < v).
Proof.
  destruct items as [|x l]; [done |]. intros _. unfold top_product.
  destruct (py_max_by_value_spec x l) as (i & Hi & Hmax & Hfirst).
  exists i, (py_max_by_value x l).2. split; [| done].
  by destruct (py_max_by_value x l).
Qed.

(** X19. Whatever the order of the entries of the map, the top product is
    "N/A" when the map is empty, and otherwise a name of the map whose
    revenue no other name exceeds. *)
Theorem top_product_of_a_revenue_map (m : gmap value Z)
    (items : list (value * Z)) :
  items ≡ₚ map_to_list m →
  (m = ∅ → top_product items = VStr "N/A") ∧
  (m ≠ ∅ →
     ∃ v, m !! top_product items = Some v ∧
          ∀ k' v', m !! k' = Some v' → v' ≤ v).
Proof.
  intros Hperm. split.
  - intros ->. rewrite map_to_list_empty in Hperm.
    by apply Permutation_nil_r in Hperm as ->.
  - intros Hne. destruct items as [|x l].
    + symmetry in Hperm. apply Permutation_nil_r in Hperm.
      by apply map_to_list_empty_iff in Hperm.
    + unfold top_product.
      destruct (py_max_by_value_spec x l) as (i & Hi & Hmax & _).
      exists (py_max_by_value x l).2. split.
      * apply elem_of_map_to_list. rewrite <- Hperm.
        apply (list_elem_of_lookup_2 _ i). rewrite Hi.
        by destruct (py_max_by_value x l).
      * intros k' v' Hk'. apply elem_of_map_to_list in Hk'.
        rewrite <- Hperm in Hk'. apply (Hmax (k', v') Hk').
Qed.

(** ** The progress bar *)

(** X20. The progress shown while chunks are read never goes back as the
    chunk count grows and never passes nine tenths, so the bar is full
    only once the stream is exhausted. *)
Theorem progress_is_monotone_and_capped (n m : nat) :
  (n ≤ m)%nat →
  (progress n <= progress m)%Q ∧ (progress m <= 9 # 10)%Q ∧
  (progress m < 1)%Q.
Proof.
  intros Hnm. unfold progress. split; [| split].
  - apply Q.min_le_compat_r.
    apply Qmult_le_compat_r; [| done].
    rewrite <- Zle_Qle. lia.
  - apply Q.le_min_r.
  - eapply Qle_lt_trans; [apply Q.le_min_r | done].
Qed.

End MoreFacts.

(** X10. The map that results from crediting group sums does not depend on
    the order in which the groups are credited, so the order in which
    [groupby] lists its groups does not matter. *)
Theorem crediting_order_is_irrelevant (names : gmap value value)
    (label : string) (m : gmap value Z) (g1 g2 : list (value * Z)) :
  g1 ≡ₚ g2 →
  foldl (credit names label) m g1 = foldl (credit names label) m g2.
Proof.
  intros Hperm. apply map_eq. intros k.
  rewrite !(foldl_credit_lookup (λ _, None)). unfold credited, tally_of.
  assert (filter (λ kx : value * Z, display_name names label kx.1 = k) g1 ≡ₚ
          filter (λ kx : value * Z, display_name names label kx.1 = k) g2)
    as Hf by by rewrite Hperm.
  assert (Exists (λ kx : value * Z, display_name names label kx.1 = k) g1 ↔
          Exists (λ kx : value * Z, display_name names label kx.1 = k) g2)
    as He by by rewrite Hperm.
  rewrite (sum_Z_permutation _ _ (fmap_Permutation snd _ _ Hf)).
  by apply decide_ext.
Qed.

(** * The Sales Trends tab *)

Section Trends.

Variable parse_date : string → option Z.

Lemma columns_filtered_data (a : agg_data) (s : DataFrame) (start stop : Z) :
  columns (filtered_data parse_date a s start stop) = columns s.
Proof.
  unfold filtered_data.
  destruct (min_date a); [| done]. destruct (max_date a); [| done].
  destruct (col_index "date" (columns s)) as [i|] eqn:E; [| done].
  cbn [columns]. unfold reparse_dates. rewrite E. unfold set_col.
  by rewrite E.
Qed.







(** X22. For a run on a file with a date column and no revenue column,
    the Sales Trends tab fails with a KeyError as soon as a row is shown:
    it asks for the revenue column without checking that it is there. *)
Theorem trends_tab_fails_without_revenue (chunksize : nat) (fs : files)
    (sales : DataFrame) (a : agg_data) (s : DataFrame) (start stop : Z) :
  sales_csv fs = Some sales →
  has_col "date" sales = true →
  has_col "revenue" sales = false →
  load_sales_chunked parse_date chunksize fs = Done (a, s) →
  rows (filtered_data parse_date a s start stop) ≠ [] →
  daily_sales (filtered_data parse_date a s start stop) = KeyError.
Proof.
  intros Hs Hd Hr H Hne.
  apply bool_decide_eq_true in Hd as [i Hi].
  apply bool_decide_eq_false in Hr.
  assert (col_index "revenue" (columns sales) = None) as Hj.
  { destruct (col_index "revenue" (columns sales)) eqn:E; [| done].
    destruct Hr. by eexists. }
  destruct (sample_row_origin parse_date _ _ _ _ H)
    as (? & ? & sales' & ? & ? & ? & _ & _ & Hs' & _ & _ & _ & Hcols & _).
  assert (sales' = sales) as -> by congruence.
  unfold daily_sales.
  rewrite columns_filtered_data, Hcols, !col_index_sample_columns by done.
  rewrite Hi, Hj. rewrite decide_True; [done |].
  unfold len. destruct (rows _); [done | simpl; lia].
Qed.

End Trends.

(** * The further properties on small files *)

(** X1 on the same row twice, read one row at a time. *)
Lemma transactions_of_the_doubled_row :
  (length (dedup (rows sales_twice)) ≤ total_transactions (the_agg run_twice))%nat ∧
  (total_transactions (the_agg run_twice) ≤ length (rows sales_twice))%nat.
Proof.
  apply (transactions_between_distinct_and_all_rows parse_two_days 1
           (files_with sales_twice) sales_twice
           (the_agg run_twice) (the_sample run_twice));
    by vm_compute.
Defined.

(** X2 on the four rows. *)
Lemma avg_ticket_of_the_four_rows :
  (0 < total_transactions (the_agg run_four))%nat ∧
  avg_ticket (the_agg run_four) =
    Some (inject_Z (total_revenue (the_agg run_four)) /
          inject_Z (Z.of_nat (total_transactions (the_agg run_four))))%Q.
Proof.
  apply (avg_ticket_of_a_run parse_two_days 1 (files_with sales_four)
           sales_four (the_agg run_four) (the_sample run_four));
    by vm_compute.
Defined.

(** X3 on the four rows. *)
Lemma sample_size_of_the_four_rows :
  (length (rows (the_sample run_four)) ≤ sample_cap)%nat ∧
  (length (rows (the_sample run_four)) ≤ sample_chunks * 1)%nat ∧
  (length (rows (the_sample run_four)) ≤
   total_transactions (the_agg run_four))%nat.
Proof.
  apply (sample_size_is_bounded parse_two_days 1 (files_with sales_four)
           (the_agg run_four) (the_sample run_four)).
  by vm_compute.
Defined.

(** X4 on the four rows. *)
Lemma sample_frame_of_the_four_rows :
  columns (the_sample run_four) = sample_columns (columns sales_four) ∧
  rectangular (the_sample run_four).
Proof.
  apply (sample_is_a_well_formed_frame parse_two_days 1
           (files_with sales_four) sales_four
           (the_agg run_four) (the_sample run_four));
    [by vm_compute | by repeat constructor | by vm_compute].
Defined.

(** X5 on the four rows: the first row of the sample has product 1 and
    store 10. *)
Lemma sample_names_of_the_first_row :
  let r := [VTime first_day; VNum 5; VNum 1; VNum 10;
            VStr "Apple"; VStr "Oslo"] in
  row_get (the_sample run_four) "product_name" r = Some (VStr "Apple") ∧
  row_get (the_sample run_four) "city" r = Some (VStr "Oslo").
Proof.
  intros r.
  assert (rectangular sales_four) as Hrect by by repeat constructor.
  assert (r ∈ rows (the_sample run_four)) as Hr.
  { apply (list_elem_of_lookup_2 _ 0%nat). by vm_compute. }
  destruct (sample_name_of_known_id parse_two_days 1
              (files_with sales_four) products_named cities_named sales_four
              pd_named cd_named (the_agg run_four) (the_sample run_four) r
              eq_refl eq_refl eq_refl ltac:(by vm_compute)
              ltac:(by vm_compute) Hrect ltac:(by vm_compute) Hr) as [Hp Hc].
  split.
  - apply (Hp (VNum 1)); by vm_compute.
  - apply (Hc (VNum 10)); by vm_compute.
Defined.


(** X7 on the file without a revenue column. *)
Lemma revenue_without_a_revenue_column :
  total_revenue (the_agg run_no_revenue) = 0 ∧
  product_revenue (the_agg run_no_revenue) = ∅ ∧
  city_revenue (the_agg run_no_revenue) = ∅.
Proof.
  apply (no_revenue_column_gives_zero_revenue parse_two_days 1
           (files_with sales_no_revenue) sales_no_revenue
           (the_agg run_no_revenue) (the_sample run_no_revenue));
    by vm_compute.
Defined.



(** X10 on two groups, credited in both orders. *)
Lemma crediting_two_groups_in_both_orders :
  foldl (credit pd_named "Product") ∅ [(VNum 1, 5); (VNum 7, 3)] =
  foldl (credit pd_named "Product") ∅ [(VNum 7, 3); (VNum 1, 5)].
Proof.
  apply crediting_order_is_irrelevant. apply perm_swap.
Defined.


(** X12 on the file without a date column. *)
Lemma date_range_without_a_date_column :
  min_date (the_agg run_no_date) = None ∧
  max_date (the_agg run_no_date) = None ∧
  filtered_data parse_two_days (the_agg run_no_date) (the_sample run_no_date)
    0 0 = the_sample run_no_date.
Proof.
  apply (no_date_column_gives_no_date_range parse_two_days 1
           (files_with sales_no_date) sales_no_date
           (the_agg run_no_date) (the_sample run_no_date));
    by vm_compute.
Defined.

(** X13 on the four rows, for the first day only. *)
Lemma rows_shown_for_the_first_day :
  let shown :=
    filtered_data parse_two_days (the_agg run_four) (the_sample run_four)
      (day first_day) (day first_day) in
  columns shown = columns (the_sample run_four) ∧
  rows shown `sublist_of` rows (the_sample run_four) ∧
  ∀ r, r ∈ rows shown ↔
       r ∈ rows (the_sample run_four) ∧
       ∃ t, cell 0 r = VTime t ∧ day first_day ≤ day t ≤ day first_day.
Proof.
  apply (date_filter_keeps_the_rows_of_the_range parse_two_days 1
           (files_with sales_four) sales_four 0%nat
           (the_agg run_four) (the_sample run_four) first_day second_day);
    try (by vm_compute).
  by repeat constructor.
Defined.

(** X14 on the four rows: two of the three sample rows have a date. *)
Lemma rows_shown_for_the_default_range :
  rows (filtered_data parse_two_days (the_agg run_four) (the_sample run_four)
          (day first_day) (day second_day)) =
  filter (λ r, is_time (cell 0 r)) (rows (the_sample run_four)).
Proof.
  apply (default_range_shows_every_dated_row parse_two_days 1
           (files_with sales_four) sales_four 0%nat
           (the_agg run_four) (the_sample run_four));
    try (by vm_compute).
  by repeat constructor.
Defined.


(** X18 on three entries, two of them with the largest revenue. *)
Lemma top_product_of_three_entries :
  ∃ i v, [(VStr "a", 3); (VStr "b", 5); (VStr "c", 5)] !! i =
           Some (top_product [(VStr "a", 3); (VStr "b", 5); (VStr "c", 5)], v) ∧
         (∀ kx, kx ∈ [(VStr "a", 3); (VStr "b", 5); (VStr "c", 5)] → kx.2 ≤ v) ∧
         (∀ j kx, (j < i)%nat →
                  [(VStr "a", 3); (VStr "b", 5); (VStr "c", 5)] !! j = Some kx →
                  kx.2 < v).
Proof.
  apply (top_product_is_the_first_best_entry
           [(VStr "a", 3); (VStr "b", 5); (VStr "c", 5)]).
  done.
Defined.

(** X19 on the product revenue of the four rows. *)
Lemma top_product_of_the_four_rows :
  let m := product_revenue (the_agg run_four) in
  (m = ∅ → top_product (map_to_list m) = VStr "N/A") ∧
  (m ≠ ∅ →
     ∃ v, m !! top_product (map_to_list m) = Some v ∧
          ∀ k' v', m !! k' = Some v' → v' ≤ v).
Proof.
  intros m. apply (top_product_of_a_revenue_map m (map_to_list m)).
  reflexivity.
Defined.

(** X20 for the third and the twelfth chunk. *)
Lemma progress_of_two_chunk_counts :
  (progress 3 <= progress 12)%Q ∧ (progress 12 <= 9 # 10)%Q ∧
  (progress 12 < 1)%Q.
Proof. apply (progress_is_monotone_and_capped 3 12). lia. Defined.


(** X22 on the file without a revenue column. *)
Lemma trends_without_a_revenue_column :
  daily_sales
    (filtered_data parse_two_days (the_agg run_no_revenue)
       (the_sample run_no_revenue) (day first_day) (day second_day)) =
  KeyError.
Proof.
  apply (trends_tab_fails_without_revenue parse_two_days 1
           (files_with sales_no_revenue) sales_no_revenue
           (the_agg run_no_revenue) (the_sample run_no_revenue));
    by vm_compute.
Defined.
